(** * torch.legacy.nn.BatchNormalization: the Python layer object

    A shallow embedding of [torch/legacy/nn/BatchNormalization.py].  The layer
    is a Python object: a dictionary of attributes that the methods read and
    assign.  Methods are computations over that dictionary which either return
    a value or raise, and which keep whatever they assigned before raising. *)

From Stdlib Require Import ZArith QArith String Ascii List DecimalString.
From stdpp Require Import gmap strings list fin_maps.

Local Open Scope string_scope.
Local Open Scope Z_scope.

(** ** Python values and exceptions *)

Module Py.

(** The exceptions the module can raise.  [RuntimeError] carries its
    message; [AttributeError] and [NameError] the name that was looked up. *)
Inductive exn : Type :=
| RuntimeError (msg : string)
| AssertionError
| AttributeError (attr : string)
| NameError (name : string)
| TypeError
| IndexError
| ValueError.

Inductive result (A : Type) : Type :=
| Ok (a : A)
| Raise (e : exn).
Arguments Ok {A} a.
Arguments Raise {A} e.

Definition is_raise {A} (r : result A) : bool :=
  match r with Raise _ => true | Ok _ => false end.

(** [str(n)] for an int. *)
Definition str_int (n : Z) : string := NilZero.string_of_int (Z.to_int n).

(** [fmt.format(a, b, ...)] with automatically numbered fields: every [{}]
    takes the next argument, doubled braces stand for one brace, and any
    other character (a percent sign too) is copied as it is.  Arguments
    that no field asks for are dropped, as in Python. *)
Fixpoint format (fmt : string) (args : list string) : result string :=
  match fmt with
  | EmptyString => Ok EmptyString
  | String c rest =>
      let copy :=
        match format rest args with
        | Ok s => Ok (String c s)
        | Raise e => Raise e
        end in
      if Ascii.eqb c "{" then
        match rest with
        | String d rest' =>
            if Ascii.eqb d "}" then
              match args with
              | a :: args' =>
                  match format rest' args' with
                  | Ok s => Ok (String.append a s)
                  | Raise e => Raise e
                  end
              | [] => Raise IndexError
              end
            else if Ascii.eqb d "{" then
              match format rest' args with
              | Ok s => Ok (String "{" s)
              | Raise e => Raise e
              end
            else Raise ValueError
        | EmptyString => Raise ValueError
        end
      else if Ascii.eqb c "}" then
        match rest with
        | String d rest' =>
            if Ascii.eqb d "}" then
              match format rest' args with
              | Ok s => Ok (String "}" s)
              | Raise e => Raise e
              end
            else Raise ValueError
        | EmptyString => Raise ValueError
        end
      else copy
  end.

(** [sub in s]. *)
Definition contains (sub s : string) : bool :=
  match String.index 0 sub s with Some _ => true | None => false end.

(** A message names the integer [n] when the decimal numeral of [n] occurs
    in it. *)
Definition names_int (msg : string) (n : Z) : bool := contains (str_int n) msg.

End Py.
Export Py.

(** ** Tensors

    The tensor library is outside this file.  A tensor is kept by value: its
    sizes, its elements in row-major order (scalars are read in exact rational
    arithmetic), and whether its storage is contiguous. *)

Module Tensor.

Record tensor : Type := mkTensor {
  sizes : list Z;
  data : list Q;
  contiguous : bool
}.

(** Storage the library leaves uninitialised is read as this value. *)
Definition uninit : Q := 0%Q.

Definition dim (t : tensor) : Z := Z.of_nat (length (sizes t)).

(** [t.size(d)], dimensions counted from 0. *)
Definition size (t : tensor) (d : nat) : Z := nth d (sizes t) 0.

Definition numel (ss : list Z) : Z :=
  match ss with
  | [] => 0
  | _ => fold_right Z.mul 1 ss
  end.

Definition nElement (t : tensor) : Z := numel (sizes t).

Definition isContiguous (t : tensor) : bool := contiguous t.

(** [torch.Tensor()] and [t.new()]: no dimension, no element. *)
Definition empty : tensor := mkTensor [] [] true.

(** The sizes of a one-dimensional tensor asked for with [n] elements: the
    library stops at the first size that is not positive, so such a request
    gives the tensor with no dimension. *)
Definition sizes1 (n : Z) : list Z := if 0 <? n then [n] else [].

Definition full (n : Z) (x : Q) : tensor :=
  mkTensor (sizes1 n) (repeat x (Z.to_nat n)) true.

(** [torch.zeros(n)], [torch.ones(n)], [torch.Tensor(n)]. *)
Definition zeros (n : Z) : tensor := full n 0%Q.
Definition ones (n : Z) : tensor := full n 1%Q.
Definition alloc (n : Z) : tensor := full n uninit.

(** [xs] cut or padded to [n] elements. *)
Definition fit (n : nat) (xs : list Q) : list Q :=
  firstn n xs ++ repeat uninit (n - length xs).

(** [t.resizeAs(src)]: the sizes of [src], the elements that fit kept. *)
Definition resizeAs (t src : tensor) : tensor :=
  mkTensor (sizes src) (fit (Z.to_nat (nElement src)) (data t)) true.

(** [t.copy(src)]: the elements of [src] into the storage of [t]. *)
Definition copy (t src : tensor) : tensor :=
  mkTensor (sizes t) (data src) (contiguous t).

Definition map_data (f : Q -> Q) (t : tensor) : tensor :=
  mkTensor (sizes t) (map f (data t)) (contiguous t).

(** [t.fill(x)], [t.zero()], in place. *)
Definition fill (x : Q) (t : tensor) : tensor := map_data (fun _ => x) t.
Definition zero (t : tensor) : tensor := fill 0%Q t.

(** [t.pow(k)] and [t.add(x)]: new tensors, element by element. *)
Definition pow (k : Z) (t : tensor) : tensor :=
  mkTensor (sizes t) (map (fun x => Qpower x k) (data t)) true.
Definition add (x : Q) (t : tensor) : tensor :=
  mkTensor (sizes t) (map (fun y => Qplus y x) (data t)) true.

(** [t.uniform()]: every element is replaced by the next draw of the
    generator, whose draws are [draw 0, draw 1, ...] and which stands at
    position [pos]. *)
Definition uniform (draw : nat -> Q) (pos : nat) (t : tensor) : tensor :=
  mkTensor (sizes t) (map draw (seq pos (length (data t)))) (contiguous t).

(** [t.set_()]: the tensor gives up its storage. *)
Definition set_ (t : tensor) : tensor := empty.

End Tensor.
Export Tensor.

(** ** The object and the method monad *)

Inductive value : Type :=
| VNone
| VBool (b : bool)
| VInt (n : Z)
| VFloat (x : Q)
| VTensor (t : tensor).

(** Truth value of an object in a condition: [None], [False] and zero are
    false; a tensor is an object like any other and counts as true. *)
Definition truthy (v : value) : bool :=
  match v with
  | VNone => false
  | VBool b => b
  | VInt n => negb (n =? 0)
  | VFloat x => negb (Qnum x =? 0)
  | VTensor _ => true
  end.

(** [a or b]. *)
Definition py_or (a b : value) : value := if truthy a then a else b.

Definition is_none (v : value) : bool :=
  match v with VNone => true | _ => false end.

(** Unary minus, and the number a scalar argument stands for. *)
Definition py_neg (v : value) : result value :=
  match v with
  | VInt n => Ok (VInt (- n))
  | VFloat x => Ok (VFloat (Qopp x))
  | VBool b => Ok (VInt (- (if b then 1 else 0)))
  | _ => Raise TypeError
  end.

Definition as_number (v : value) : result Q :=
  match v with
  | VInt n => Ok (inject_Z n)
  | VFloat x => Ok x
  | VBool b => Ok (inject_Z (if b then 1 else 0))
  | _ => Raise TypeError
  end.

(** The world a method runs in: the attributes of [self], and the position of
    the random generator that [uniform] draws from. *)
Record world : Type := mkWorld {
  self : gmap string value;
  gen : nat
}.

Definition M (A : Type) : Type := world -> result A * world.

Definition ret {A} (a : A) : M A := fun w => (Ok a, w).

Definition raise {A} (e : exn) : M A := fun w => (Raise e, w).

Definition bind {A B} (m : M A) (k : A -> M B) : M B :=
  fun w =>
    match m w with
    | (Ok a, w') => k a w'
    | (Raise e, w') => (Raise e, w')
    end.

Notation "'let*' x ':=' m 'in' k" := (bind m (fun x => k))
  (at level 10, x pattern, m at level 100, k at level 200).

Definition lift {A} (r : result A) : M A := fun w => (r, w).

Definition getattr (a : string) : M value :=
  fun w =>
    match self w !! a with
    | Some v => (Ok v, w)
    | None => (Raise (AttributeError a), w)
    end.

Definition setattr (a : string) (v : value) : M unit :=
  fun w => (Ok tt, mkWorld (<[a := v]> (self w)) (gen w)).

Definition hasattr (a : string) : M bool :=
  fun w => (Ok (match self w !! a with Some _ => true | None => false end), w).

(** The receiver of a tensor method: anything else has no such method. *)
Definition as_tensor (meth : string) (v : value) : M tensor :=
  match v with
  | VTensor t => ret t
  | _ => raise (AttributeError meth)
  end.

(** A tensor expected as an argument. *)
Definition tensor_arg (v : value) : M tensor :=
  match v with
  | VTensor t => ret t
  | _ => raise TypeError
  end.

(** [self.a.meth(...)] for a method that works in place. *)
Definition update_tensor (a meth : string) (f : tensor -> tensor) : M unit :=
  let* v := getattr a in
  let* t := as_tensor meth v in
  setattr a (VTensor (f t)).

(** A buffer argument of the shared backward routine: [None], or one of the
    layer's own tensors, which Python passes by reference and which is
    designated here by the attribute that holds it. *)
Inductive bufarg : Type :=
| NoBuffer
| OwnBuffer (attr : string).

Definition peek (b : bufarg) : M value :=
  match b with
  | NoBuffer => ret VNone
  | OwnBuffer a => getattr a
  end.

Definition poke (b : bufarg) (v : value) : M unit :=
  match b with
  | NoBuffer => ret tt
  | OwnBuffer a => setattr a v
  end.

(** What a backend routine leaves in a buffer reaches the object only when
    the routine was handed a tensor there. *)
Definition store_back (b : bufarg) (passed : value) (after : tensor) : M unit :=
  match passed with
  | VTensor _ => poke b (VTensor after)
  | _ => ret tt
  end.

Definition of_option (o : option tensor) : value :=
  match o with Some t => VTensor t | None => VNone end.

(** The buffers the two backend routines write. *)
Record forward_out : Type := mkForwardOut {
  fo_output : tensor;
  fo_running_mean : tensor;
  fo_running_var : tensor;
  fo_save_mean : tensor;
  fo_save_std : tensor
}.

Record backward_out : Type := mkBackwardOut {
  bo_gradInput : tensor;
  bo_gradWeight : tensor;
  bo_gradBias : tensor
}.

(** ** The layer *)

Section BatchNormalization.

(** The draws of the random generator. *)
Variable draw : nat -> Q.

(** The two routines of the backend, [self._backend.BatchNormalization_*]
    in the source.  They are compiled code outside this file and stay
    parameters: each is given its arguments in the order of the call and
    answers with the contents it leaves in the buffers it writes. *)
Variable BatchNormalization_updateOutput :
  forall (input : tensor)
         (output weight bias running_mean running_var save_mean save_std
          train momentum eps : value), forward_out.

Variable BatchNormalization_backward :
  forall (input : tensor)
         (gradOutput gradInput gradWeight gradBias weight running_mean
          running_var save_mean save_std train scale eps : value),
    backward_out.

(** The persisted form of a layer and the loader of the base class,
    [nn.Module.read], which are outside this file as well. *)
Variable file : Type.
Variable Module_read : file -> M unit.

(** Modelled from the spec: the constructor of the base class [nn.Module]
    is not among the sources; it gives every layer the two buffers the
    layer owns and returns from its calls, [output] and [gradInput], with
    nothing in them until the first call. *)
Definition Module_init : M unit :=
  let* _ := setattr "gradInput" (VTensor Tensor.empty) in
  setattr "output" (VTensor Tensor.empty).

(** [self.a.uniform()]: draws as many numbers as the tensor has. *)
Definition uniform_attr (a : string) : M unit :=
  let* v := getattr a in
  let* t := as_tensor "uniform" v in
  fun w =>
    (Ok tt,
     mkWorld (<[a := VTensor (uniform draw (gen w) t)]> (self w))
             (gen w + length (data t))%nat).

Definition reset : M unit :=
  let* wt := getattr "weight" in
  let* _ := if truthy wt then uniform_attr "weight" else ret tt in
  let* b := getattr "bias" in
  let* _ := if truthy b then update_tensor "bias" "zero" Tensor.zero else ret tt in
  let* _ := update_tensor "running_mean" "zero" Tensor.zero in
  update_tensor "running_var" "fill" (Tensor.fill 1%Q).

Definition __init__ (nOutput : Z) (eps momentum affine : value) : M unit :=
  let* _ := Module_init in
  if nOutput =? 0 then raise AssertionError else
  let* _ := setattr "affine" affine in
  let* _ := setattr "eps" eps in
  let* _ := setattr "train" (VBool true) in
  let* _ := setattr "momentum" momentum in
  let* _ := setattr "running_mean" (VTensor (zeros nOutput)) in
  let* _ := setattr "running_var" (VTensor (ones nOutput)) in
  let* _ := setattr "save_mean" VNone in
  let* _ := setattr "save_std" VNone in
  let* a := getattr "affine" in
  if truthy a then
    let* _ := setattr "weight" (VTensor (alloc nOutput)) in
    let* _ := setattr "bias" (VTensor (alloc nOutput)) in
    let* _ := setattr "gradWeight" (VTensor (alloc nOutput)) in
    let* _ := setattr "gradBias" (VTensor (alloc nOutput)) in
    reset
  else
    let* _ := setattr "weight" VNone in
    let* _ := setattr "bias" VNone in
    let* _ := setattr "gradWeight" VNone in
    setattr "gradBias" VNone.

Definition rank_message : string :=
  "only mini-batch supported (2D tensor), got {}D tensor instead".

Definition feature_message : string :=
  "got %d-feature tensor, expected %d".

Definition _checkInputDim (input : tensor) : M unit :=
  if negb (dim input =? 2) then
    let* msg := lift (format rank_message [str_int (dim input)]) in
    raise (RuntimeError msg)
  else
    let* rm := getattr "running_mean" in
    let* t := as_tensor "nElement" rm in
    if negb (Tensor.size input 1 =? nElement t) then
      let* msg := lift (format feature_message
                          [str_int (Tensor.size input 1); str_int (nElement t)]) in
      raise (RuntimeError msg)
    else ret tt.

(** One half of [_makeContiguous]: the tensor itself when it is contiguous,
    else a contiguous copy of it kept in the attribute [a]. *)
Definition contiguous_in (a : string) (t : tensor) : M tensor :=
  if negb (isContiguous t) then
    let* cur := getattr a in
    let buf := py_or cur (VTensor Tensor.empty) in
    let* _ := setattr a buf in
    let* b := as_tensor "resizeAs" buf in
    let b' := Tensor.copy (resizeAs b t) t in
    let* _ := setattr a (VTensor b') in
    ret b'
  else ret t.

Definition _makeContiguous (input : tensor) (gradOutput : option tensor)
  : M (tensor * option tensor) :=
  let* input' := contiguous_in "_input" input in
  let* gradOutput' :=
    match gradOutput with
    | Some g =>
        if truthy (VTensor g) then
          let* g' := contiguous_in "_gradOutput" g in ret (Some g')
        else ret (Some g)
    | None => ret None
    end in
  ret (input', gradOutput').

Definition updateOutput (input : tensor) : M value :=
  let* _ := _checkInputDim input in
  let* (input, _) := _makeContiguous input None in
  let* _ := update_tensor "output" "resizeAs" (fun t => resizeAs t input) in
  let* sm := getattr "save_mean" in
  let* _ := setattr "save_mean" (py_or sm (VTensor Tensor.empty)) in
  let* sm := getattr "save_mean" in
  let* smt := as_tensor "resizeAs" sm in
  let* rm := getattr "running_mean" in
  let* rmt := tensor_arg rm in
  let* _ := setattr "save_mean" (VTensor (resizeAs smt rmt)) in
  let* ss := getattr "save_std" in
  let* _ := setattr "save_std" (py_or ss (VTensor Tensor.empty)) in
  let* ss := getattr "save_std" in
  let* sst := as_tensor "resizeAs" ss in
  let* rv := getattr "running_var" in
  let* rvt := tensor_arg rv in
  let* _ := setattr "save_std" (VTensor (resizeAs sst rvt)) in
  let* output := getattr "output" in
  let* weight := getattr "weight" in
  let* bias := getattr "bias" in
  let* running_mean := getattr "running_mean" in
  let* running_var := getattr "running_var" in
  let* save_mean := getattr "save_mean" in
  let* save_std := getattr "save_std" in
  let* train := getattr "train" in
  let* momentum := getattr "momentum" in
  let* eps := getattr "eps" in
  let r := BatchNormalization_updateOutput input output weight bias
             running_mean running_var save_mean save_std train momentum eps in
  let* _ := store_back (OwnBuffer "output") output (fo_output r) in
  let* _ := store_back (OwnBuffer "running_mean") running_mean (fo_running_mean r) in
  let* _ := store_back (OwnBuffer "running_var") running_var (fo_running_var r) in
  let* _ := store_back (OwnBuffer "save_mean") save_mean (fo_save_mean r) in
  let* _ := store_back (OwnBuffer "save_std") save_std (fo_save_std r) in
  getattr "output".

Definition state_message : string :=
  "you have to call updateOutput() at least once before backward()".

Definition _backward (input gradOutput : tensor) (scale : value)
           (gradInput gradWeight gradBias : bufarg) : M value :=
  let* _ := _checkInputDim input in
  let* _ := _checkInputDim gradOutput in
  let* has_mean := hasattr "save_mean" in
  let* has_std := hasattr "save_std" in
  if negb has_mean || negb has_std then raise (RuntimeError state_message) else
  let* (input, gradOutput) := _makeContiguous input (Some gradOutput) in
  let scale := py_or scale (VInt 1) in
  let* gi := peek gradInput in
  let* _ :=
    if negb (is_none gi) then
      let* t := as_tensor "resizeAs" gi in
      let* g := tensor_arg (of_option gradOutput) in
      poke gradInput (VTensor (resizeAs t g))
    else ret tt in
  let* gi := peek gradInput in
  let* gw := peek gradWeight in
  let* gb := peek gradBias in
  let* weight := getattr "weight" in
  let* running_mean := getattr "running_mean" in
  let* running_var := getattr "running_var" in
  let* save_mean := getattr "save_mean" in
  let* save_std := getattr "save_std" in
  let* train := getattr "train" in
  let* eps := getattr "eps" in
  let r := BatchNormalization_backward input (of_option gradOutput) gi gw gb
             weight running_mean running_var save_mean save_std train scale eps in
  let* _ := store_back gradInput gi (bo_gradInput r) in
  let* _ := store_back gradWeight gw (bo_gradWeight r) in
  let* _ := store_back gradBias gb (bo_gradBias r) in
  getattr "gradInput".

(** The entry points evaluate the buffers they pass, [self.gradInput] and
    the like, before the call. *)
Definition backward (input gradOutput : tensor) (scale : value) : M value :=
  let* _ := getattr "gradInput" in
  let* _ := getattr "gradWeight" in
  let* _ := getattr "gradBias" in
  _backward input gradOutput scale
    (OwnBuffer "gradInput") (OwnBuffer "gradWeight") (OwnBuffer "gradBias").

Definition updateGradInput (input gradOutput : tensor) : M value :=
  let* _ := getattr "gradInput" in
  _backward input gradOutput (VInt 1) (OwnBuffer "gradInput") NoBuffer NoBuffer.

Definition accGradParameters (input gradOutput : tensor) (scale : value) : M value :=
  let* _ := getattr "gradWeight" in
  let* _ := getattr "gradBias" in
  _backward input gradOutput scale
    NoBuffer (OwnBuffer "gradWeight") (OwnBuffer "gradBias").

Definition read (f : file) (version : Z) : M unit :=
  let* _ := Module_read f in
  if version <? 2 then
    let* rs := getattr "running_std" in
    if truthy rs then
      let* rs := getattr "running_std" in
      let* t := as_tensor "pow" rs in
      let* eps := getattr "eps" in
      let* neg_eps := lift (py_neg eps) in
      let* x := lift (as_number neg_eps) in
      let* _ := setattr "running_var" (VTensor (Tensor.add x (Tensor.pow (-2) t))) in
      let* nil_ := raise (NameError "nil") in
      setattr "running_std" nil_
    else ret tt
  else ret tt.

(** Modelled from the spec: [nn.utils.clear] is not among the sources.  It
    drops what the named attributes hold: a tensor gives up its storage,
    anything else becomes [None], and a name the object does not have is
    passed over. *)
Definition clear1 (a : string) : M unit :=
  let* has := hasattr a in
  if has then
    let* v := getattr a in
    match v with
    | VTensor t => setattr a (VTensor (set_ t))
    | _ => setattr a VNone
    end
  else ret tt.

Fixpoint clear (names : list string) : M unit :=
  match names with
  | [] => ret tt
  | a :: rest => let* _ := clear1 a in clear rest
  end.

(** Modelled from the spec: [nn.Module.clearState] is not among the sources;
    the base class drops the buffers it gave the layer. *)
Definition Module_clearState : M unit := clear ["output"; "gradInput"].

Definition cleared_names : list string :=
  ["buffer"; "buffer2"; "centered"; "std"; "normalized";
   "_input"; "_gradOutput"; "save_mean"; "save_std"].

Definition clearState : M unit :=
  let* _ := clear cleared_names in
  Module_clearState.

End BatchNormalization.

(** ** Vocabulary of the statements *)

(** *** Layers in a regular state

    What the constructor establishes and every call keeps: the attributes
    the methods read exist, the buffers the backend writes are tensors, and
    the four parameter attributes are tensors on an affine layer and [None]
    on a layer that is not. *)

Definition is_tensor (v : value) : bool :=
  match v with VTensor _ => true | _ => false end.
Definition is_buffer (v : value) : bool := is_none v || is_tensor v.
Definition param_ok (affine v : value) : bool :=
  if truthy affine then is_tensor v else is_none v.

Inductive well_formed : world -> Prop :=
| well_formed_intro (s : gmap string value) (g : nat)
    (affine wt b gw gb sm ss eps train mom : value) (rm rv out gi : tensor) :
    s !! "affine" = Some affine ->
    s !! "weight" = Some wt -> param_ok affine wt = true ->
    s !! "bias" = Some b -> param_ok affine b = true ->
    s !! "gradWeight" = Some gw -> param_ok affine gw = true ->
    s !! "gradBias" = Some gb -> param_ok affine gb = true ->
    s !! "running_mean" = Some (VTensor rm) ->
    s !! "running_var" = Some (VTensor rv) ->
    s !! "output" = Some (VTensor out) ->
    s !! "gradInput" = Some (VTensor gi) ->
    s !! "save_mean" = Some sm -> is_buffer sm = true ->
    s !! "save_std" = Some ss -> is_buffer ss = true ->
    s !! "eps" = Some eps ->
    s !! "train" = Some train ->
    s !! "momentum" = Some mom ->
    well_formed (mkWorld s g).

(** *** What a call leaves alone *)

(** The attributes [ks] keep their values from [w] to [w']. *)
Definition same_on (ks : list string) (w w' : world) : Prop :=
  Forall (fun k => self w' !! k = self w !! k) ks.

(** Nothing but the attributes [ks] is written, and nothing is drawn. *)
Definition frame (ks : list string) (w w' : world) : Prop :=
  gen w' = gen w /\ forall k, ~ In k ks -> self w' !! k = self w !! k.

(** The buffers [_makeContiguous] keeps its copies in. *)
Definition scratch : list string := ["_input"; "_gradOutput"].

(** The state of the layer proper: running statistics, forward cache,
    parameters and gradient accumulators. *)
Definition layer_state : list string :=
  ["running_mean"; "running_var"; "save_mean"; "save_std";
   "weight"; "bias"; "gradWeight"; "gradBias"].

(** *** Cleared attributes *)

Definition drop_value (v : value) : value :=
  match v with
  | VTensor t => VTensor (set_ t)
  | _ => VNone
  end.

(** An attribute holds no data: it is absent, [None], or a tensor without
    elements. *)
Definition holds_nothing (o : option value) : Prop :=
  match o with
  | None => True
  | Some VNone => True
  | Some (VTensor t) => data t = [] /\ nElement t = 0
  | Some _ => False
  end.

(** *** Filled and drawn tensors *)

Definition filled (x : Q) (t t' : tensor) : Prop :=
  sizes t' = sizes t /\ data t' = repeat x (length (data t)).

Definition drawn (draw : nat -> Q) (pos : nat) (t t' : tensor) : Prop :=
  sizes t' = sizes t /\ data t' = map draw (seq pos (length (data t))).

(** The public operations of the layer, as calls. *)
Inductive call : Type :=
| Call_updateOutput (input : tensor)
| Call_backward (input gradOutput : tensor) (scale : value)
| Call_updateGradInput (input gradOutput : tensor)
| Call_accGradParameters (input gradOutput : tensor) (scale : value).

Definition perform kf kb (c : call) : M value :=
  match c with
  | Call_updateOutput i => updateOutput kf i
  | Call_backward i g scale => backward kb i g scale
  | Call_updateGradInput i g => updateGradInput kb i g
  | Call_accGradParameters i g scale => accGradParameters kb i g scale
  end.

(** The tensor a call validates first. *)
Definition call_input (c : call) : tensor :=
  match c with
  | Call_updateOutput i => i
  | Call_backward i _ _ => i
  | Call_updateGradInput i _ => i
  | Call_accGradParameters i _ _ => i
  end.

(** The attributes that stay when the cached state is cleared. *)
Definition kept_state : list string :=
  ["running_mean"; "running_var"; "weight"; "bias"; "gradWeight"; "gradBias"].

(** The attributes that hold the forward cache and the contiguity buffers. *)
Definition cached_state : list string :=
  ["save_mean"; "save_std"; "_input"; "_gradOutput"].

(** The attribute holds a tensor made for [n] features: [n] elements when
    [n] is positive, none when it is not. *)
Definition feature_tensor (n : Z) (o : option value) : Prop :=
  exists t, o = Some (VTensor t) /\
            nElement t = Z.max 0 n /\ length (data t) = Z.to_nat n.

(** The errors a public call raises on a regular layer: the two validation
    errors, and the error of an attribute that is missing. *)
Definition expected_error (e : exn) : Prop :=
  (exists d, e = RuntimeError
                   ("only mini-batch supported (2D tensor), got "
                      ++ str_int d ++ "D tensor instead")%string) \/
  e = RuntimeError "got %d-feature tensor, expected %d" \/
  exists m, e = AttributeError m.

(** ** A concrete layer

    A generator, two backend routines and a layer of three features, on which
    the statements below are exercised. *)
Module Example.

Definition draw0 (i : nat) : Q := (1 # Pos.of_succ_nat i)%Q.

Definition tensor_of (v : value) : tensor :=
  match v with VTensor t => t | _ => Tensor.empty end.

Definition kf0 (input : tensor)
           (output weight bias running_mean running_var save_mean save_std
            train momentum eps : value) : forward_out :=
  mkForwardOut (Tensor.copy (tensor_of output) input)
               (tensor_of running_mean) (tensor_of running_var)
               (Tensor.zero (tensor_of save_mean))
               (Tensor.fill 1%Q (tensor_of save_std)).

Definition kb0 (input : tensor)
           (gradOutput gradInput gradWeight gradBias weight running_mean
            running_var save_mean save_std train scale eps : value)
  : backward_out :=
  mkBackwardOut (tensor_of gradOutput) (tensor_of gradWeight)
                (tensor_of gradBias).

(** A routine that agrees with [kb0] at scale 1 and nowhere else. *)
Definition kb1 (input : tensor)
           (gradOutput gradInput gradWeight gradBias weight running_mean
            running_var save_mean save_std train scale eps : value)
  : backward_out :=
  match scale with
  | VInt 1 =>
      mkBackwardOut (tensor_of gradOutput) (tensor_of gradWeight)
                    (tensor_of gradBias)
  | _ => mkBackwardOut Tensor.empty Tensor.empty Tensor.empty
  end.

Definition eps0 : value := VFloat (1 # 100000).
Definition momentum0 : value := VFloat (1 # 10).

Definition nothing : world := mkWorld ∅ 0.

Definition layer3 : world :=
  snd (__init__ draw0 3 eps0 momentum0 (VBool true) nothing).

Definition plain3 : world :=
  snd (__init__ draw0 3 eps0 momentum0 (VBool false) nothing).

Definition batch : tensor :=
  mkTensor [2; 3] [1; 2; 3; 4; 5; 6]%Q true.

Definition wide : tensor :=
  mkTensor [4; 5] (repeat 1%Q 20) true.

Definition flat : tensor := mkTensor [3] [1; 2; 3]%Q true.

(** A persisted layer of the old format, and a loader that takes the
    attributes from it. *)
Definition old_file : gmap string value :=
  <["running_std" := VTensor (mkTensor [2] [2; 4]%Q true)]>
    (<["eps" := eps0]> ∅).

Definition load (f : gmap string value) : M unit :=
  fun w => (Ok tt, mkWorld f (gen w)).

End Example.

(** Further tensors and layers on which the statements are exercised. *)
Module Cases.

Definition strided : tensor :=
  mkTensor [2; 3] [1; 2; 3; 4; 5; 6]%Q false.

(** The layer of three features with a contiguity buffer not yet in use. *)
Definition buffered : world :=
  mkWorld (<["_input" := VNone]> (self Example.layer3)) (gen Example.layer3).

(** The same layer after its forward cache attribute was deleted. *)
Definition uncached : world :=
  mkWorld (delete "save_mean" (self Example.layer3)) (gen Example.layer3).

(** A persisted layer of the old format without a usable [running_std]. *)
Definition bare_file : gmap string value :=
  <["running_std" := VNone]> (<["eps" := Example.eps0]> ∅).


End Cases.

(** * Properties *)

(** ** Running a method step by step *)

Section Run.
Context {A B C : Type}.

Lemma run_assoc (m : M A) (k1 : A -> M B) (k2 : B -> M C) w :
  bind (bind m k1) k2 w = bind m (fun a => bind (k1 a) k2) w.
Proof. unfold bind. destruct (m w) as [[a|e] w']; reflexivity. Qed.

Lemma run_ret (a : A) (k : A -> M B) w : bind (ret a) k w = k a w.
Proof. reflexivity. Qed.

Lemma run_raise (e : exn) (k : A -> M B) w :
  bind (raise e) k w = (Raise e, w).
Proof. reflexivity. Qed.

Lemma run_lift (r : result A) (k : A -> M B) w :
  bind (lift r) k w =
  match r with Ok a => k a w | Raise e => (Raise e, w) end.
Proof. destruct r; reflexivity. Qed.

Lemma run_getattr a (k : value -> M B) s g :
  bind (getattr a) k (mkWorld s g) =
  match s !! a with
  | Some v => k v (mkWorld s g)
  | None => (Raise (AttributeError a), mkWorld s g)
  end.
Proof. unfold bind, getattr. cbn [self]. destruct (s !! a); reflexivity. Qed.

Lemma run_setattr a v (k : unit -> M B) s g :
  bind (setattr a v) k (mkWorld s g) = k tt (mkWorld (<[a := v]> s) g).
Proof. reflexivity. Qed.

Lemma run_hasattr a (k : bool -> M B) s g :
  bind (hasattr a) k (mkWorld s g) =
  k (match s !! a with Some _ => true | None => false end) (mkWorld s g).
Proof. reflexivity. Qed.
End Run.

Lemma run_tail {A} (m : M A) w : m w = bind m ret w.
Proof. unfold bind, ret. destruct (m w) as [[a|e] w']; reflexivity. Qed.

Lemma lookup_set_eq (s : gmap string value) a v : <[a := v]> s !! a = Some v.
Proof. apply lookup_insert_eq. Qed.

Lemma lookup_set_ne (s : gmap string value) a b v :
  a <> b -> <[a := v]> s !! b = s !! b.
Proof. apply lookup_insert_ne. Qed.

Ltac simpl_lookup :=
  repeat first
    [ rewrite lookup_set_eq
    | rewrite lookup_set_ne by (intro; discriminate)
    | match goal with
      | H : ?s !! ?k = _ |- context [?s !! ?k] => rewrite H
      end ].

Ltac simpl_values :=
  cbn [truthy py_or is_none is_tensor is_buffer negb orb andb of_option
       py_neg as_number fst snd self gen].

Ltac head_of t := lazymatch t with ?f _ => head_of f | _ => t end.

Ltac split_lookup :=
  try match goal with
      | |- context [match ?s !! ?k with _ => _ end] => destruct (s !! k) eqn:?
      end.

Ltac run_special m := fail.

Ltac run_basic m :=
  lazymatch m with
  | bind _ _ => rewrite run_assoc
  | ret _ => rewrite run_ret
  | raise _ => rewrite run_raise
  | lift _ => rewrite run_lift
  | getattr _ => rewrite run_getattr; simpl_lookup; split_lookup
  | setattr _ _ => rewrite run_setattr
  | hasattr _ => rewrite run_hasattr; simpl_lookup; split_lookup
  | (if ?c then _ else _) => destruct c eqn:?
  | (match ?v with _ => _ end) => destruct v eqn:?
  | (fun _ => _) => unfold bind at 1
  | _ => let h := head_of m in unfold h
  end.

Ltac run_head m := first [ run_special m | run_basic m ].

Ltac run_step :=
  cbv beta iota zeta; simpl_values;
  first
    [ match goal with
      | H : truthy ?v = _ |- context [truthy ?v] => rewrite H
      | H : is_buffer ?v = true |- context [py_or ?v _] =>
          is_var v; destruct v; try discriminate H; clear H
      | |- context [as_tensor _ (py_or ?v ?d)] =>
          is_var v; unfold py_or; destruct v
      | |- context [if truthy ?v then _ else _] =>
          is_var v; destruct (truthy v) eqn:?
      | |- context [if ?b then _ else _] => is_var b; destruct b
      end
    | lazymatch goal with
      | |- context [@bind ?A ?B ?m ?k ?w] => run_head m
      | |- context [match ?x with _ => _ end] => destruct x eqn:?
      end ].

Ltac run := repeat run_step; cbv beta iota zeta delta [ret raise]; simpl_values.

Lemma init_well_formed draw n eps mom aff w0 w :
  __init__ draw n eps mom aff w0 = (Ok tt, w) -> well_formed w.
Proof.
  destruct w0 as [s g]. rewrite run_tail. unfold __init__.
  destruct (truthy aff) eqn:Haff.
  all: run; intros [= <-]; econstructor; simpl_lookup; try reflexivity.
  all: unfold param_ok; rewrite Haff; reflexivity.
Qed.

Lemma _checkInputDim_pure t w : snd (_checkInputDim t w) = w.
Proof.
  destruct w as [s g]. rewrite run_tail. unfold _checkInputDim.
  run; reflexivity.
Qed.

Lemma run_checkInputDim {B} t (k : unit -> M B) w :
  bind (_checkInputDim t) k w =
  match fst (_checkInputDim t w) with
  | Ok _ => k tt w
  | Raise e => (Raise e, w)
  end.
Proof.
  unfold bind. pose proof (_checkInputDim_pure t w) as H.
  destruct (_checkInputDim t w) as [[[]|e] w1]; cbn in *; subst; reflexivity.
Qed.

Lemma frame_refl ks w : frame ks w w.
Proof. split; auto. Qed.

Lemma frame_trans ks w1 w2 w3 :
  frame ks w1 w2 -> frame ks w2 w3 -> frame ks w1 w3.
Proof.
  intros [? H1] [? H2]. split; [congruence|].
  intros k Hk. rewrite H2, H1; auto.
Qed.

Lemma frame_mono ks ks' w w' :
  incl ks ks' -> frame ks w w' -> frame ks' w w'.
Proof.
  intros Hsub [? H]. split; [assumption|].
  intros k Hk. apply H. intros Hin. apply Hk, Hsub, Hin.
Qed.

Lemma frame_setattr ks a v s g :
  In a ks -> frame ks (mkWorld s g) (mkWorld (<[a := v]> s) g).
Proof.
  intros Ha. split; [reflexivity|]. intros k Hk. cbn [self].
  apply lookup_insert_ne. intros ->. contradiction.
Qed.

Ltac in_tac := cbn [In]; intuition (discriminate || congruence).

Ltac frame_tac :=
  repeat (eapply frame_trans; [| apply frame_setattr; in_tac]);
  apply frame_refl.

Lemma contiguous_in_frame a t w r w' :
  contiguous_in a t w = (r, w') -> frame [a] w w'.
Proof.
  destruct w as [s g]. rewrite run_tail. unfold contiguous_in.
  run; intros [= <- <-]; frame_tac.
Qed.

Lemma contiguous_in_contiguous a t w :
  isContiguous t = true -> contiguous_in a t w = (Ok t, w).
Proof. intros H. unfold contiguous_in. rewrite H. reflexivity. Qed.

Lemma bind_inv {A B} (m : M A) (k : A -> M B) w r w' :
  bind m k w = (r, w') ->
  (exists a w1, m w = (Ok a, w1) /\ k a w1 = (r, w')) \/
  (exists e, m w = (Raise e, w') /\ r = Raise e).
Proof.
  unfold bind. destruct (m w) as [[a|e] w1].
  - intros H. left. eauto.
  - intros [= <- <-]. right. eauto.
Qed.

Lemma contiguous_in_scratch a t w r w' :
  In a scratch -> contiguous_in a t w = (r, w') -> frame scratch w w'.
Proof.
  intros Ha H. apply contiguous_in_frame in H.
  revert H. apply frame_mono. intros k [<-|[]]. exact Ha.
Qed.

Lemma _makeContiguous_frame i og w r w' :
  _makeContiguous i og w = (r, w') -> frame scratch w w'.
Proof.
  assert (Hi : In "_input" scratch) by (unfold scratch; in_tac).
  assert (Hg : In "_gradOutput" scratch) by (unfold scratch; in_tac).
  unfold _makeContiguous. intros H.
  apply bind_inv in H. destruct H as [(i' & w1 & H1 & H)|(e & H1 & _)].
  2: { exact (contiguous_in_scratch _ _ _ _ _ Hi H1). }
  apply (contiguous_in_scratch _ _ _ _ _ Hi) in H1.
  apply bind_inv in H. destruct H as [(g' & w2 & H2 & H)|(e & H2 & _)].
  - injection H as <- <-.
    destruct og as [g0|]; cbn [truthy] in H2.
    + apply bind_inv in H2. destruct H2 as [(g1 & w3 & H2 & H)|(e & H2 & ?)].
      * injection H as <- <-.
        apply (contiguous_in_scratch _ _ _ _ _ Hg) in H2.
        eapply frame_trans; eassumption.
      * discriminate.
    + injection H2 as <- <-. exact H1.
  - destruct og as [g0|]; cbn [truthy] in H2; [|discriminate].
    apply bind_inv in H2. destruct H2 as [(g1 & w3 & H2 & H)|(e' & H2 & ?)].
    + discriminate.
    + apply (contiguous_in_scratch _ _ _ _ _ Hg) in H2.
      eapply frame_trans; eassumption.
Qed.

Lemma well_formed_frame w w' :
  frame scratch w w' -> well_formed w -> well_formed w'.
Proof.
  intros [Hg Hf] Hwf. destruct w' as [s' g']. destruct Hwf.
  cbn [self gen] in *.
  econstructor;
    (rewrite Hf; [eassumption | unfold scratch; in_tac]) || eassumption.
Qed.

(** ** Failing calls *)

Lemma run_opaque {A B} (m : M A) (k : A -> M B) w :
  bind m k w =
  match m w with
  | (Ok a, w') => k a w'
  | (Raise e, w') => (Raise e, w')
  end.
Proof. reflexivity. Qed.

Lemma _makeContiguous_contiguous i g w :
  isContiguous i = true -> isContiguous g = true ->
  _makeContiguous i (Some g) w = (Ok (i, Some g), w).
Proof.
  intros Hi Hg. unfold _makeContiguous, bind. cbn [truthy].
  rewrite !contiguous_in_contiguous by assumption. reflexivity.
Qed.

Lemma _makeContiguous_contiguous1 i w :
  isContiguous i = true -> _makeContiguous i None w = (Ok (i, None), w).
Proof.
  intros Hi. unfold _makeContiguous, bind.
  rewrite !contiguous_in_contiguous by assumption. reflexivity.
Qed.

Lemma frame_same_on ks w w' :
  frame scratch w w' ->
  Forall (fun k => ~ In k scratch) ks -> same_on ks w w'.
Proof.
  intros [_ H] Hks. unfold same_on.
  induction Hks; constructor; auto.
Qed.

Lemma layer_state_not_scratch : Forall (fun k => ~ In k scratch) layer_state.
Proof. unfold layer_state, scratch. repeat constructor; in_tac. Qed.

Ltac use_check t w :=
  first
    [ match goal with
      | H : fst (_checkInputDim t w) = _ |- _ => rewrite H
      end
    | destruct (fst (_checkInputDim t w)) as [[]|?] eqn:? ].

Ltac use_contiguity i og w :=
  first
    [ rewrite (_makeContiguous_contiguous i) by assumption
    | rewrite (_makeContiguous_contiguous1 i) by assumption
    | let Hmc := fresh "Hmc" in
      let s' := fresh "s" in
      let g' := fresh "g" in
      destruct (_makeContiguous i og w) as [[[? ?]|?] [s' g']] eqn:Hmc;
      apply _makeContiguous_frame in Hmc;
      try match goal with
          | Hwf : well_formed w |- _ =>
              let Hwf' := fresh "Hwf" in
              pose proof (well_formed_frame _ _ Hmc Hwf) as Hwf';
              inversion Hwf'; subst
          end ].

Ltac run_special m ::=
  lazymatch m with
  | _checkInputDim ?t =>
      rewrite run_checkInputDim;
      lazymatch goal with
      | |- context [fst (_checkInputDim t ?w)] => use_check t w
      end
  | _makeContiguous ?i ?og =>
      rewrite run_opaque;
      lazymatch goal with
      | |- context [_makeContiguous i og ?w] => use_contiguity i og w
      end
  end.

Ltac frame_goal :=
  lazymatch goal with
  | Hmc : frame scratch ?w _ |- frame scratch ?w _ =>
      eapply frame_trans; [exact Hmc | frame_tac]
  | |- _ => frame_tac
  end.

Lemma updateOutput_failure kf input w e w' :
  well_formed w ->
  updateOutput kf input w = (Raise e, w') -> frame scratch w w'.
Proof.
  intros Hwf. destruct w as [s g]. rewrite run_tail. unfold updateOutput.
  run; try discriminate; intros [= <- <-]; frame_goal.
Qed.

Lemma backward_failure kb input gradOutput scale w e w' :
  well_formed w ->
  backward kb input gradOutput scale w = (Raise e, w') -> frame scratch w w'.
Proof.
  intros Hwf. destruct w as [s g]. inversion Hwf; subst.
  rewrite run_tail. unfold backward.
  run; try discriminate; intros [= <- <-]; frame_goal.
Qed.

Lemma updateGradInput_failure kb input gradOutput w e w' :
  well_formed w ->
  updateGradInput kb input gradOutput w = (Raise e, w') -> frame scratch w w'.
Proof.
  intros Hwf. destruct w as [s g]. inversion Hwf; subst.
  rewrite run_tail. unfold updateGradInput.
  run; try discriminate; intros [= <- <-]; frame_goal.
Qed.

Lemma accGradParameters_failure kb input gradOutput scale w e w' :
  well_formed w ->
  accGradParameters kb input gradOutput scale w = (Raise e, w') ->
  frame scratch w w'.
Proof.
  intros Hwf. destruct w as [s g]. inversion Hwf; subst.
  rewrite run_tail. unfold accGradParameters.
  run; try discriminate; intros [= <- <-]; frame_goal.
Qed.

(** ** Returning calls *)

(** Under the hypotheses of a regular call (a well-formed layer, inputs of
    the right shape in contiguous storage) every backward entry point
    returns, and what it returns is the attribute [gradInput]. *)
Lemma backward_returns kb input gradOutput scale w r w' :
  well_formed w ->
  fst (_checkInputDim input w) = Ok tt ->
  fst (_checkInputDim gradOutput w) = Ok tt ->
  isContiguous input = true -> isContiguous gradOutput = true ->
  backward kb input gradOutput scale w = (r, w') ->
  exists v, r = Ok v /\ self w' !! "gradInput" = Some v.
Proof.
  intros Hwf Hi Hg Hci Hcg. destruct w as [s g]. inversion Hwf; subst.
  rewrite run_tail. unfold backward.
  run; intros [= <- <-]; eexists; split; try reflexivity;
    cbn [self]; simpl_lookup; reflexivity.
Qed.

Lemma updateGradInput_returns kb input gradOutput w r w' :
  well_formed w ->
  fst (_checkInputDim input w) = Ok tt ->
  fst (_checkInputDim gradOutput w) = Ok tt ->
  isContiguous input = true -> isContiguous gradOutput = true ->
  updateGradInput kb input gradOutput w = (r, w') ->
  exists v, r = Ok v /\ self w' !! "gradInput" = Some v.
Proof.
  intros Hwf Hi Hg Hci Hcg. destruct w as [s g]. inversion Hwf; subst.
  rewrite run_tail. unfold updateGradInput.
  run; intros [= <- <-]; eexists; split; try reflexivity;
    cbn [self]; simpl_lookup; reflexivity.
Qed.

Lemma accGradParameters_returns kb input gradOutput scale w r w' :
  well_formed w ->
  fst (_checkInputDim input w) = Ok tt ->
  fst (_checkInputDim gradOutput w) = Ok tt ->
  isContiguous input = true -> isContiguous gradOutput = true ->
  accGradParameters kb input gradOutput scale w = (r, w') ->
  exists v, r = Ok v /\ self w !! "gradInput" = Some v /\
            self w' !! "gradInput" = Some v.
Proof.
  intros Hwf Hi Hg Hci Hcg. destruct w as [s g]. inversion Hwf; subst.
  rewrite run_tail. unfold accGradParameters.
  run; intros [= <- <-]; eexists; split; try reflexivity;
    cbn [self]; simpl_lookup; split; try eassumption; reflexivity.
Qed.

Lemma frame_after ks w w1 w2 :
  frame scratch w w1 -> frame (scratch ++ ks) w1 w2 ->
  frame (scratch ++ ks) w w2.
Proof.
  intros H1 H2. eapply frame_trans; [|exact H2].
  revert H1. apply frame_mono. intros k Hk. apply in_or_app. left. exact Hk.
Qed.

Ltac frame_more :=
  first
    [ solve [unfold scratch; cbn [app]; frame_tac]
    | match goal with
      | Hmc : frame scratch ?w _ |- frame _ ?w _ =>
          eapply frame_after; [exact Hmc|];
          solve [unfold scratch; cbn [app]; frame_tac]
      end ].

(** The parameter-only entry point never writes [gradInput], whatever the
    layer and the inputs. *)
Lemma accGradParameters_frame kb input gradOutput scale w r w' :
  accGradParameters kb input gradOutput scale w = (r, w') ->
  frame (scratch ++ ["gradWeight"; "gradBias"]) w w'.
Proof.
  destruct w as [s g]. rewrite run_tail. unfold accGradParameters.
  run; intros [= <- <-].
  all: frame_more.
Qed.

(** The input-only entry point never writes a parameter gradient. *)
Lemma updateGradInput_frame kb input gradOutput w r w' :
  updateGradInput kb input gradOutput w = (r, w') ->
  frame (scratch ++ ["gradInput"]) w w'.
Proof.
  destruct w as [s g]. rewrite run_tail. unfold updateGradInput.
  run; intros [= <- <-].
  all: frame_more.
Qed.

(** *** Validation *)

Lemma _checkInputDim_rank input w :
  dim input <> 2 ->
  _checkInputDim input w =
  (Raise (RuntimeError
            ("only mini-batch supported (2D tensor), got "
               ++ str_int (dim input) ++ "D tensor instead")%string), w).
Proof.
  intros Hd. unfold _checkInputDim.
  destruct (dim input =? 2) eqn:E; [apply Z.eqb_eq in E; contradiction|].
  reflexivity.
Qed.

Lemma _checkInputDim_features input w t :
  dim input = 2 ->
  self w !! "running_mean" = Some (VTensor t) ->
  Tensor.size input 1 <> nElement t ->
  _checkInputDim input w = (Raise (RuntimeError feature_message), w).
Proof.
  intros Hd Hrm Hne. unfold _checkInputDim. rewrite Hd.
  change (negb (2 =? 2)) with false. cbv iota.
  unfold bind at 1. unfold getattr. rewrite Hrm.
  unfold bind at 1. cbn [as_tensor ret].
  apply Z.eqb_neq in Hne. rewrite Hne. reflexivity.
Qed.

Lemma check_failure_updateOutput kf input w e :
  fst (_checkInputDim input w) = Raise e ->
  updateOutput kf input w = (Raise e, w).
Proof.
  intros H. unfold updateOutput. rewrite run_checkInputDim, H. reflexivity.
Qed.

Lemma check_failure_backward kb input gradOutput scale gi gw gb w e :
  fst (_checkInputDim input w) = Raise e ->
  _backward kb input gradOutput scale gi gw gb w = (Raise e, w).
Proof.
  intros H. unfold _backward. rewrite run_checkInputDim, H. reflexivity.
Qed.

Lemma check_failure_backward2 kb input gradOutput scale gi gw gb w e :
  fst (_checkInputDim input w) = Ok tt ->
  fst (_checkInputDim gradOutput w) = Raise e ->
  _backward kb input gradOutput scale gi gw gb w = (Raise e, w).
Proof.
  intros H1 H2. unfold _backward.
  rewrite run_checkInputDim, H1, run_checkInputDim, H2. reflexivity.
Qed.

(** *** The scale factor *)


(** *** Clearing *)

Lemma clear1_alter a w :
  clear1 a w = (Ok tt, mkWorld (alter drop_value a (self w)) (gen w)).
Proof.
  destruct w as [s g]. cbn [self gen]. unfold clear1. rewrite run_hasattr.
  destruct (s !! a) as [v|] eqn:E.
  - assert (Hs : alter drop_value a s = <[a := drop_value v]> s).
    { apply map_eq. intros j. destruct (decide (a = j)) as [<-|Hne].
      - rewrite lookup_alter_eq, lookup_insert_eq, E. reflexivity.
      - rewrite lookup_alter_ne, lookup_insert_ne by assumption. reflexivity. }
    rewrite run_getattr, E, Hs. destruct v; reflexivity.
  - assert (Hs : alter drop_value a s = s).
    { apply map_eq. intros j. destruct (decide (a = j)) as [<-|Hne].
      - rewrite lookup_alter_eq, E. reflexivity.
      - rewrite lookup_alter_ne by assumption. reflexivity. }
    rewrite Hs. reflexivity.
Qed.

Lemma holds_nothing_drop o : holds_nothing (drop_value <$> o).
Proof. destruct o as [[]|]; cbn; auto. Qed.

Lemma holds_nothing_keep o : holds_nothing o -> holds_nothing (drop_value <$> o).
Proof. intros _. apply holds_nothing_drop. Qed.

Lemma clear_spec names : forall w,
  exists w', clear names w = (Ok tt, w') /\ gen w' = gen w /\
    (forall k, ~ In k names -> self w' !! k = self w !! k) /\
    (forall k, In k names -> holds_nothing (self w' !! k)) /\
    (forall k, holds_nothing (self w !! k) -> holds_nothing (self w' !! k)).
Proof.
  induction names as [|a names IH]; intros w.
  - exists w. cbn. repeat split; auto. intros k [].
  - cbn [clear]. unfold bind. rewrite clear1_alter.
    destruct (IH (mkWorld (alter drop_value a (self w)) (gen w)))
      as (w' & Hrun & Hgen & Hout & Hin & Hkeep).
    exists w'. rewrite Hrun. cbn [self gen] in *.
    split; [reflexivity|]. split; [assumption|]. split; [|split].
    + intros k Hk. rewrite Hout by (intros ?; apply Hk; right; assumption).
      apply lookup_alter_ne. intros ->. apply Hk. left. reflexivity.
    + intros k [<-|Hk]; [|apply Hin; assumption].
      apply Hkeep. rewrite lookup_alter_eq. apply holds_nothing_drop.
    + intros k Hk. apply Hkeep.
      destruct (decide (a = k)) as [<-|Hne].
      * rewrite lookup_alter_eq. apply holds_nothing_drop.
      * rewrite lookup_alter_ne by assumption. assumption.
Qed.

(** *** Construction *)

Lemma init_rejects_zero draw eps mom aff w0 :
  fst (__init__ draw 0 eps mom aff w0) = Raise AssertionError.
Proof. destruct w0 as [s g]. reflexivity. Qed.

Lemma nElement_full n x : nElement (full n x) = Z.max 0 n.
Proof.
  unfold nElement, full, sizes1. cbn [sizes].
  destruct (0 <? n) eqn:E; cbn [numel fold_right].
  - apply Z.ltb_lt in E. lia.
  - apply Z.ltb_ge in E. lia.
Qed.

Lemma init_returns draw n eps mom aff w0 :
  n <> 0 ->
  exists w rm, __init__ draw n eps mom aff w0 = (Ok tt, w) /\
    self w !! "running_mean" = Some (VTensor rm) /\
    nElement rm = Z.max 0 n.
Proof.
  intros Hn. apply Z.eqb_neq in Hn. destruct w0 as [s g].
  rewrite run_tail. unfold __init__. rewrite run_assoc.
  unfold Module_init. rewrite run_assoc, !run_setattr, Hn.
  destruct (truthy aff) eqn:Haff.
  all: run; do 2 eexists; split; [reflexivity|]; cbn [self]; simpl_lookup.
  all: split; [reflexivity|]; apply nElement_full.
Qed.

(** *** Resetting *)

Lemma fill_filled x t : filled x t (Tensor.fill x t).
Proof. split; [reflexivity|]. apply map_const. Qed.

Lemma uniform_drawn draw pos t : drawn draw pos t (uniform draw pos t).
Proof. split; reflexivity. Qed.

Lemma bind_ext {A B} (m : M A) (k1 k2 : A -> M B) w :
  (forall a w', k1 a w' = k2 a w') -> bind m k1 w = bind m k2 w.
Proof.
  intros H. unfold bind. destruct (m w) as [[a|e] w']; [apply H|reflexivity].
Qed.

Lemma reset_running draw w :
  well_formed w ->
  exists w' rm rm' rv rv',
    reset draw w = (Ok tt, w') /\
    self w !! "running_mean" = Some (VTensor rm) /\
    self w' !! "running_mean" = Some (VTensor rm') /\ filled 0%Q rm rm' /\
    self w !! "running_var" = Some (VTensor rv) /\
    self w' !! "running_var" = Some (VTensor rv') /\ filled 1%Q rv rv'.
Proof.
  intros Hwf. destruct w as [s g]. inversion Hwf; subst.
  unfold param_ok in *. rewrite run_tail. unfold reset.
  destruct (truthy affine) eqn:Haff.
  all: run; try discriminate.
  all: do 5 eexists; split; [reflexivity|]; cbn [self]; simpl_lookup.
  all: repeat split; apply map_const.
Qed.

Lemma reset_affine draw w aff :
  well_formed w -> self w !! "affine" = Some aff -> truthy aff = true ->
  exists w' wt wt' b b',
    reset draw w = (Ok tt, w') /\
    self w !! "weight" = Some (VTensor wt) /\
    self w' !! "weight" = Some (VTensor wt') /\ drawn draw (gen w) wt wt' /\
    self w !! "bias" = Some (VTensor b) /\
    self w' !! "bias" = Some (VTensor b') /\ filled 0%Q b b' /\
    gen w' = (gen w + length (data wt))%nat.
Proof.
  intros Hwf Ha Haff. destruct w as [s g]. inversion Hwf; subst.
  cbn [self] in Ha. unfold param_ok in *.
  assert (affine = aff) by congruence. subst affine. rewrite Haff in *.
  destruct wt; try discriminate. destruct b; try discriminate.
  rewrite run_tail. unfold reset.
  run; try discriminate.
  all: do 5 eexists; split; [reflexivity|]; cbn [self gen]; simpl_lookup.
  all: repeat split; apply map_const.
Qed.

Lemma reset_plain draw w aff :
  well_formed w -> self w !! "affine" = Some aff -> truthy aff = false ->
  exists w',
    reset draw w = (Ok tt, w') /\ frame ["running_mean"; "running_var"] w w'.
Proof.
  intros Hwf Ha Haff. destruct w as [s g]. inversion Hwf; subst.
  cbn [self] in Ha. unfold param_ok in *.
  assert (affine = aff) by congruence. subst affine. rewrite Haff in *.
  destruct wt; try discriminate. destruct b; try discriminate.
  rewrite run_tail. unfold reset.
  run; try discriminate.
  all: eexists; split; [reflexivity|]; frame_tac.
Qed.


(** *** Loading *)

Lemma read_old_format file (Module_read : file -> M unit) f version w s g t e :
  version < 2 ->
  Module_read f w = (Ok tt, mkWorld s g) ->
  s !! "running_std" = Some (VTensor t) ->
  s !! "eps" = Some (VFloat e) ->
  read file Module_read f version w =
  (Raise (NameError "nil"),
   mkWorld (<["running_var" :=
              VTensor (Tensor.add (Qopp e) (Tensor.pow (-2) t))]> s) g).
Proof.
  intros Hv Hr Hstd Heps. apply Z.ltb_lt in Hv.
  rewrite run_tail. unfold read. rewrite run_assoc, run_opaque, Hr, Hv.
  run. reflexivity.
Qed.

Lemma add_pow_data x t :
  sizes (Tensor.add x (Tensor.pow (-2) t)) = sizes t /\
  data (Tensor.add x (Tensor.pow (-2) t)) =
  map (fun s => Qplus (Qpower s (-2)) x) (data t).
Proof. split; [reflexivity|]. cbn [Tensor.add Tensor.pow data]. apply map_map. Qed.

(** *** The kernel as [updateGradInput] sees it *)

Lemma updateGradInput_kernel kb1 kb2 input gradOutput w :
  (forall i go gi wt rm rv sm ss train eps,
      kb1 i go gi VNone VNone wt rm rv sm ss train (VInt 1) eps =
      kb2 i go gi VNone VNone wt rm rv sm ss train (VInt 1) eps) ->
  updateGradInput kb1 input gradOutput w = updateGradInput kb2 input gradOutput w.
Proof.
  intros H. unfold updateGradInput, _backward.
  cbn [peek poke py_or truthy negb Z.eqb].
  repeat (cbv beta;
          first
            [ rewrite !run_ret
            | apply bind_ext; intros
            | match goal with
              | |- (if ?c then _ else _) _ = _ => destruct c
              | |- (let (_, _) := ?p in _) _ = _ => destruct p
              end ]).
  all: rewrite ?H; reflexivity.
Qed.

(** *** Helper lemmas on calls *)

Lemma init_cache draw n eps mom aff w0 w :
  __init__ draw n eps mom aff w0 = (Ok tt, w) ->
  self w !! "save_mean" = Some VNone /\ self w !! "save_std" = Some VNone.
Proof.
  destruct w0 as [s g]. rewrite run_tail. unfold __init__.
  destruct (truthy aff) eqn:Haff.
  all: run; intros [= <-]; cbn [self]; simpl_lookup; split; reflexivity.
Qed.

Lemma validation_failure kf kb c w e :
  well_formed w ->
  fst (_checkInputDim (call_input c) w) = Raise e ->
  perform kf kb c w = (Raise e, w).
Proof.
  intros Hwf H. destruct w as [s g]. inversion Hwf; subst.
  destruct c; cbn [perform call_input] in *.
  - apply check_failure_updateOutput, H.
  - unfold backward. rewrite !run_getattr. simpl_lookup.
    apply check_failure_backward, H.
  - unfold updateGradInput. rewrite !run_getattr. simpl_lookup.
    apply check_failure_backward, H.
  - unfold accGradParameters. rewrite !run_getattr. simpl_lookup.
    apply check_failure_backward, H.
Qed.

Lemma perform_failure kf kb c w e w' :
  well_formed w -> perform kf kb c w = (Raise e, w') -> frame scratch w w'.
Proof.
  intros Hwf. destruct c; cbn [perform].
  - apply updateOutput_failure, Hwf.
  - apply backward_failure, Hwf.
  - apply updateGradInput_failure, Hwf.
  - apply accGradParameters_failure, Hwf.
Qed.

Lemma frame_lookup ks w w' k :
  frame ks w w' -> ~ In k ks -> self w' !! k = self w !! k.
Proof. intros [_ H]. apply H. Qed.

Lemma example_layer_well_formed : well_formed Example.layer3.
Proof.
  apply (init_well_formed Example.draw0 3 Example.eps0 Example.momentum0
           (VBool true) Example.nothing).
  vm_compute. reflexivity.
Qed.

(** ** The claims *)

(** C1: the claim is that a gradient call on a layer whose forward was never
    called raises the state error.  In the code the guard asks whether the
    attributes [save_mean] and [save_std] exist, and the constructor creates
    both (holding [None]); so on a layer as constructed, with [save_mean]
    and [save_std] still [None], every gradient entry point given valid
    contiguous tensors returns normally. *)
Theorem gradient_call_before_forward_returns
    draw kb n eps mom aff w0 w input gradOutput scale :
  __init__ draw n eps mom aff w0 = (Ok tt, w) ->
  fst (_checkInputDim input w) = Ok tt ->
  fst (_checkInputDim gradOutput w) = Ok tt ->
  isContiguous input = true -> isContiguous gradOutput = true ->
  self w !! "save_mean" = Some VNone /\ self w !! "save_std" = Some VNone /\
  (exists v, fst (backward kb input gradOutput scale w) = Ok v) /\
  (exists v, fst (updateGradInput kb input gradOutput w) = Ok v) /\
  (exists v, fst (accGradParameters kb input gradOutput scale w) = Ok v).
Proof.
  intros Hinit Hi Hg Hci Hcg.
  pose proof (init_well_formed _ _ _ _ _ _ _ Hinit) as Hwf.
  destruct (init_cache _ _ _ _ _ _ _ Hinit) as [Hm Hs].
  split; [exact Hm|]. split; [exact Hs|]. repeat split.
  - destruct (backward kb input gradOutput scale w) as [r w'] eqn:E.
    destruct (backward_returns _ _ _ _ _ _ _ Hwf Hi Hg Hci Hcg E) as (v & -> & _).
    exists v. reflexivity.
  - destruct (updateGradInput kb input gradOutput w) as [r w'] eqn:E.
    destruct (updateGradInput_returns _ _ _ _ _ _ Hwf Hi Hg Hci Hcg E)
      as (v & -> & _).
    exists v. reflexivity.
  - destruct (accGradParameters kb input gradOutput scale w) as [r w'] eqn:E.
    destruct (accGradParameters_returns _ _ _ _ _ _ _ Hwf Hi Hg Hci Hcg E)
      as (v & -> & _).
    exists v. reflexivity.
Qed.

Lemma gradient_call_before_forward_returns_witness :
  self Example.layer3 !! "save_mean" = Some VNone /\
  self Example.layer3 !! "save_std" = Some VNone /\
  (exists v, fst (backward Example.kb0 Example.batch Example.batch (VInt 1)
                    Example.layer3) = Ok v) /\
  (exists v, fst (updateGradInput Example.kb0 Example.batch Example.batch
                    Example.layer3) = Ok v) /\
  (exists v, fst (accGradParameters Example.kb0 Example.batch Example.batch
                    (VInt 1) Example.layer3) = Ok v).
Proof.
  apply (gradient_call_before_forward_returns
           Example.draw0 Example.kb0 3 Example.eps0 Example.momentum0
           (VBool true) Example.nothing Example.layer3
           Example.batch Example.batch (VInt 1));
    vm_compute; reflexivity.
Defined.

(** C2: the claim is that the error for a wrong feature count names the
    actual and the expected count.  In the code the message is built by
    [format] from a string that has no replacement field, so for every
    rank-2 input whose second size differs from the feature count, every
    public call raises the same literal text, whatever the two counts are,
    and leaves the layer as it was. *)
Theorem feature_mismatch_message kf kb c w t :
  well_formed w ->
  self w !! "running_mean" = Some (VTensor t) ->
  dim (call_input c) = 2 ->
  Tensor.size (call_input c) 1 <> nElement t ->
  perform kf kb c w =
  (Raise (RuntimeError "got %d-feature tensor, expected %d"), w).
Proof.
  intros Hwf Hrm Hd Hne. apply validation_failure; [exact Hwf|].
  rewrite (_checkInputDim_features _ _ _ Hd Hrm Hne). reflexivity.
Qed.

Lemma feature_mismatch_message_witness :
  perform Example.kf0 Example.kb0 (Call_updateOutput Example.wide)
          Example.layer3 =
  (Raise (RuntimeError "got %d-feature tensor, expected %d"), Example.layer3)
  /\ Tensor.size Example.wide 1 = 5
  /\ names_int "got %d-feature tensor, expected %d" 5 = false
  /\ names_int "got %d-feature tensor, expected %d" 3 = false.
Proof.
  split.
  - apply (feature_mismatch_message Example.kf0 Example.kb0
             (Call_updateOutput Example.wide) Example.layer3
             (Tensor.zero (zeros 3))).
    + exact example_layer_well_formed.
    + vm_compute. reflexivity.
    + reflexivity.
    + vm_compute. discriminate.
  - repeat split; vm_compute; reflexivity.
Defined.

(** C3: the claim is that loading a layer of a format older than 2 that
    carries [running_std] converts it and completes without error.  In the
    code the conversion [running_var = running_std^(-2) - eps] is done, and
    the next statement assigns the undefined name [nil]: the load raises
    [NameError] and [running_std] is still there. *)
Theorem read_old_format_raises
    file (Module_read : file -> M unit) f version w w1 t e :
  version < 2 ->
  Module_read f w = (Ok tt, w1) ->
  self w1 !! "running_std" = Some (VTensor t) ->
  self w1 !! "eps" = Some (VFloat e) ->
  exists w2 rv,
    read file Module_read f version w = (Raise (NameError "nil"), w2) /\
    self w2 !! "running_std" = Some (VTensor t) /\
    self w2 !! "running_var" = Some (VTensor rv) /\
    sizes rv = sizes t /\
    data rv = map (fun s => (Qpower s (-2) - e)%Q) (data t).
Proof.
  intros Hv Hr Hstd Heps. destruct w1 as [s g]. cbn [self] in *.
  do 2 eexists. split; [exact (read_old_format _ _ _ _ _ _ _ _ _ Hv Hr Hstd Heps)|].
  cbn [self]. rewrite lookup_set_ne by discriminate. rewrite lookup_set_eq.
  split; [exact Hstd|]. split; [reflexivity|]. apply add_pow_data.
Qed.

Lemma read_old_format_raises_witness :
  exists w2 rv,
    read (gmap string value) Example.load Example.old_file 1 Example.nothing =
    (Raise (NameError "nil"), w2) /\
    self w2 !! "running_std" = Some (VTensor (mkTensor [2] [2; 4]%Q true)) /\
    self w2 !! "running_var" = Some (VTensor rv) /\
    sizes rv = [2] /\
    data rv = map (fun s => (Qpower s (-2) - (1 # 100000))%Q) [2; 4]%Q.
Proof.
  apply (read_old_format_raises (gmap string value) Example.load
           Example.old_file 1 Example.nothing
           (mkWorld Example.old_file 0) (mkTensor [2] [2; 4]%Q true)
           (1 # 100000)%Q).
  - lia.
  - reflexivity.
  - vm_compute. reflexivity.
  - vm_compute. reflexivity.
Defined.

(** C4 (amended): construction fails exactly for the feature count 0, with
    an assertion error; for every other count [n] it succeeds, and the
    running statistics, and on an affine layer the four parameters, are
    tensors of [n] elements when [n] is positive and of no element when it
    is negative (on a layer that is not affine the parameters are [None]). *)
Theorem construction_feature_count draw n eps mom aff w0 :
  (fst (__init__ draw n eps mom aff w0) = Raise AssertionError <-> n = 0) /\
  (n <> 0 ->
   exists w,
     __init__ draw n eps mom aff w0 = (Ok tt, w) /\
     feature_tensor n (self w !! "running_mean") /\
     feature_tensor n (self w !! "running_var") /\
     if truthy aff then
       feature_tensor n (self w !! "weight") /\
       feature_tensor n (self w !! "bias") /\
       feature_tensor n (self w !! "gradWeight") /\
       feature_tensor n (self w !! "gradBias")
     else
       self w !! "weight" = Some VNone /\ self w !! "bias" = Some VNone /\
       self w !! "gradWeight" = Some VNone /\
       self w !! "gradBias" = Some VNone).
Proof.
  split; [split|].
  - intros H. destruct (Z.eq_dec n 0) as [|Hn]; [assumption|].
    destruct (init_returns draw n eps mom aff w0 Hn) as (w & rm & E & _).
    rewrite E in H. discriminate.
  - intros ->. apply init_rejects_zero.
  - intros Hn. apply Z.eqb_neq in Hn. destruct w0 as [s g].
    rewrite run_tail. unfold __init__. rewrite run_assoc.
    unfold Module_init. rewrite run_assoc, !run_setattr, Hn.
    destruct (truthy aff) eqn:Haff.
    all: run; eexists; split; [reflexivity|]; cbn [self]; simpl_lookup.
    all: repeat split.
    all: eexists; split; [reflexivity|]; split;
      [ apply nElement_full
      | cbn [uniform Tensor.zero Tensor.fill map_data alloc zeros ones full
               data];
        rewrite ?length_map, ?length_seq, ?repeat_length; reflexivity ].
Qed.

(** C4, the claim as stated fails: the feature count -1 is not positive, yet
    construction succeeds, and the layer it gives has no feature. *)
Lemma negative_feature_count_accepted :
  exists w rm,
    __init__ Example.draw0 (-1) Example.eps0 Example.momentum0 (VBool true)
             Example.nothing = (Ok tt, w) /\
    self w !! "running_mean" = Some (VTensor rm) /\
    nElement rm = 0.
Proof.
  exists (snd (__init__ Example.draw0 (-1) Example.eps0 Example.momentum0
                 (VBool true) Example.nothing)), Tensor.empty.
  repeat split; vm_compute; reflexivity.
Qed.

(** C5: on a layer in a state the constructor and the calls produce, a
    public call that raises leaves the running statistics, the forward
    cache, the parameters and the gradient accumulators as they were, and
    draws nothing from the generator. *)
Theorem failure_keeps_layer_state kf kb c w e w' :
  well_formed w ->
  perform kf kb c w = (Raise e, w') ->
  same_on layer_state w w' /\ gen w' = gen w.
Proof.
  intros Hwf H. pose proof (perform_failure _ _ _ _ _ _ Hwf H) as Hf.
  split; [|apply Hf].
  apply frame_same_on; [exact Hf|apply layer_state_not_scratch].
Qed.

Lemma failure_keeps_layer_state_witness :
  same_on layer_state Example.layer3
          (snd (perform Example.kf0 Example.kb0
                  (Call_backward Example.batch Example.flat (VInt 1))
                  Example.layer3)) /\
  gen (snd (perform Example.kf0 Example.kb0
              (Call_backward Example.batch Example.flat (VInt 1))
              Example.layer3)) = gen Example.layer3.
Proof.
  apply (failure_keeps_layer_state Example.kf0 Example.kb0
           (Call_backward Example.batch Example.flat (VInt 1)) Example.layer3
           (RuntimeError
              "only mini-batch supported (2D tensor), got 1D tensor instead")).
  - exact example_layer_well_formed.
  - vm_compute. reflexivity.
Defined.

(** C6: [clearState] always returns; afterwards the forward cache and the
    contiguity buffers hold nothing, and the running statistics, the
    parameters and the gradient accumulators are as before. *)
Theorem clearState_drops_cache_only w :
  exists w',
    clearState w = (Ok tt, w') /\
    Forall (fun k => holds_nothing (self w' !! k)) cached_state /\
    same_on kept_state w w'.
Proof.
  unfold clearState, Module_clearState, bind.
  destruct (clear_spec cleared_names w) as (w1 & E1 & _ & Hout1 & Hin1 & _).
  destruct (clear_spec ["output"; "gradInput"] w1)
    as (w2 & E2 & _ & Hout2 & _ & Hkeep2).
  exists w2. rewrite E1, E2. split; [reflexivity|]. split.
  - unfold cached_state. repeat constructor.
    all: apply Hkeep2, Hin1; unfold cleared_names; in_tac.
  - unfold kept_state, same_on. repeat constructor.
    all: rewrite Hout2, Hout1; [reflexivity| |];
      unfold cleared_names; in_tac.
Qed.



(** C8: on a layer in a state the constructor and the calls produce,
    [reset] returns; afterwards every element of [running_mean] is 0 and
    every element of [running_var] is 1; on an affine layer the weight holds
    the next draws of the generator and every element of the bias is 0; on a
    layer that is not affine nothing but the two running statistics is
    written and nothing is drawn. *)
Theorem reset_spec draw w aff :
  well_formed w ->
  self w !! "affine" = Some aff ->
  exists w' rm rm' rv rv',
    reset draw w = (Ok tt, w') /\
    self w !! "running_mean" = Some (VTensor rm) /\
    self w' !! "running_mean" = Some (VTensor rm') /\ filled 0%Q rm rm' /\
    self w !! "running_var" = Some (VTensor rv) /\
    self w' !! "running_var" = Some (VTensor rv') /\ filled 1%Q rv rv' /\
    if truthy aff then
      exists wt wt' b b',
        self w !! "weight" = Some (VTensor wt) /\
        self w' !! "weight" = Some (VTensor wt') /\
        drawn draw (gen w) wt wt' /\
        self w !! "bias" = Some (VTensor b) /\
        self w' !! "bias" = Some (VTensor b') /\ filled 0%Q b b' /\
        gen w' = (gen w + length (data wt))%nat
    else frame ["running_mean"; "running_var"] w w'.
Proof.
  intros Hwf Ha.
  destruct (reset_running draw w Hwf)
    as (w' & rm & rm' & rv & rv' & E & H1 & H2 & H3 & H4 & H5 & H6).
  exists w', rm, rm', rv, rv'. repeat (split; [assumption|]).
  destruct (truthy aff) eqn:Haff.
  - destruct (reset_affine draw w aff Hwf Ha Haff)
      as (w2 & wt & wt' & b & b' & E2 & Hr).
    rewrite E in E2. injection E2 as <-. exists wt, wt', b, b'. exact Hr.
  - destruct (reset_plain draw w aff Hwf Ha Haff) as (w2 & E2 & Hr).
    rewrite E in E2. injection E2 as <-. exact Hr.
Qed.

Lemma reset_spec_witness :
  exists w' rm rm' rv rv',
    reset Example.draw0 Example.layer3 = (Ok tt, w') /\
    self Example.layer3 !! "running_mean" = Some (VTensor rm) /\
    self w' !! "running_mean" = Some (VTensor rm') /\ filled 0%Q rm rm' /\
    self Example.layer3 !! "running_var" = Some (VTensor rv) /\
    self w' !! "running_var" = Some (VTensor rv') /\ filled 1%Q rv rv' /\
    exists wt wt' b b',
      self Example.layer3 !! "weight" = Some (VTensor wt) /\
      self w' !! "weight" = Some (VTensor wt') /\
      drawn Example.draw0 (gen Example.layer3) wt wt' /\
      self Example.layer3 !! "bias" = Some (VTensor b) /\
      self w' !! "bias" = Some (VTensor b') /\ filled 0%Q b b' /\
      gen w' = (gen Example.layer3 + length (data wt))%nat.
Proof.
  apply (reset_spec Example.draw0 Example.layer3 (VBool true)).
  - exact example_layer_well_formed.
  - vm_compute. reflexivity.
Defined.



(** C10: on a layer in a state the constructor and the calls produce, given
    valid contiguous tensors, every gradient entry point returns what the
    attribute [gradInput] holds after the call; for [accGradParameters] that
    is what the attribute held before the call. *)
Theorem gradient_calls_return_gradInput kb input gradOutput scale w :
  well_formed w ->
  fst (_checkInputDim input w) = Ok tt ->
  fst (_checkInputDim gradOutput w) = Ok tt ->
  isContiguous input = true -> isContiguous gradOutput = true ->
  (exists v w', backward kb input gradOutput scale w = (Ok v, w') /\
                self w' !! "gradInput" = Some v) /\
  (exists v w', updateGradInput kb input gradOutput w = (Ok v, w') /\
                self w' !! "gradInput" = Some v) /\
  (exists v w', accGradParameters kb input gradOutput scale w = (Ok v, w') /\
                self w' !! "gradInput" = Some v /\
                self w !! "gradInput" = Some v).
Proof.
  intros Hwf Hi Hg Hci Hcg. repeat split.
  - destruct (backward kb input gradOutput scale w) as [r w'] eqn:E.
    destruct (backward_returns _ _ _ _ _ _ _ Hwf Hi Hg Hci Hcg E) as (v & -> & H).
    exists v, w'. split; [reflexivity|exact H].
  - destruct (updateGradInput kb input gradOutput w) as [r w'] eqn:E.
    destruct (updateGradInput_returns _ _ _ _ _ _ Hwf Hi Hg Hci Hcg E)
      as (v & -> & H).
    exists v, w'. split; [reflexivity|exact H].
  - destruct (accGradParameters kb input gradOutput scale w) as [r w'] eqn:E.
    destruct (accGradParameters_returns _ _ _ _ _ _ _ Hwf Hi Hg Hci Hcg E)
      as (v & -> & H0 & H).
    exists v, w'. split; [reflexivity|]. split; assumption.
Qed.

Lemma gradient_calls_return_gradInput_witness :
  (exists v w', backward Example.kb0 Example.batch Example.batch (VInt 2)
                  Example.layer3 = (Ok v, w') /\
                self w' !! "gradInput" = Some v) /\
  (exists v w', updateGradInput Example.kb0 Example.batch Example.batch
                  Example.layer3 = (Ok v, w') /\
                self w' !! "gradInput" = Some v) /\
  (exists v w', accGradParameters Example.kb0 Example.batch Example.batch
                  (VInt 2) Example.layer3 = (Ok v, w') /\
                self w' !! "gradInput" = Some v /\
                self Example.layer3 !! "gradInput" = Some v).
Proof.
  apply (gradient_calls_return_gradInput Example.kb0 Example.batch
           Example.batch (VInt 2) Example.layer3).
  - exact example_layer_well_formed.
  - vm_compute. reflexivity.
  - vm_compute. reflexivity.
  - reflexivity.
  - reflexivity.
Defined.

(** ** The regular state under the calls *)

Ltac wf_goal :=
  econstructor; simpl_lookup; try reflexivity; try eassumption;
  try (unfold param_ok in *;
       repeat match goal with
              | H : context [truthy ?a] |- context [truthy ?a] =>
                  destruct (truthy a)
              end; cbn [is_tensor is_none is_buffer orb] in *;
       solve [reflexivity | assumption | discriminate]).

Lemma updateOutput_well_formed kf input w r w' :
  well_formed w -> updateOutput kf input w = (r, w') -> well_formed w'.
Proof.
  intros Hwf. destruct w as [s g]. rewrite run_tail. unfold updateOutput.
  run; intros [= <- <-]; try assumption.
  all: solve [wf_goal].
Qed.

Lemma backward_well_formed kb input gradOutput scale w r w' :
  well_formed w -> backward kb input gradOutput scale w = (r, w') ->
  well_formed w'.
Proof.
  intros Hwf. destruct w as [s g]. rewrite run_tail. unfold backward.
  run; intros [= <- <-]; try assumption.
  all: solve [wf_goal].
Qed.

Lemma updateGradInput_well_formed kb input gradOutput w r w' :
  well_formed w -> updateGradInput kb input gradOutput w = (r, w') ->
  well_formed w'.
Proof.
  intros Hwf. destruct w as [s g]. rewrite run_tail. unfold updateGradInput.
  run; intros [= <- <-]; try assumption.
  all: solve [wf_goal].
Qed.

Lemma accGradParameters_well_formed kb input gradOutput scale w r w' :
  well_formed w -> accGradParameters kb input gradOutput scale w = (r, w') ->
  well_formed w'.
Proof.
  intros Hwf. destruct w as [s g]. rewrite run_tail. unfold accGradParameters.
  run; intros [= <- <-]; try assumption.
  all: solve [wf_goal].
Qed.

Lemma updateOutput_frame kf input w r w' :
  updateOutput kf input w = (r, w') ->
  frame (scratch ++ ["output"; "save_mean"; "save_std";
                     "running_mean"; "running_var"]) w w'.
Proof.
  destruct w as [s g]. rewrite run_tail. unfold updateOutput.
  run; intros [= <- <-].
  all: frame_more.
Qed.

Lemma backward_frame kb input gradOutput scale w r w' :
  backward kb input gradOutput scale w = (r, w') ->
  frame (scratch ++ ["gradInput"; "gradWeight"; "gradBias"]) w w'.
Proof.
  destruct w as [s g]. rewrite run_tail. unfold backward.
  run; intros [= <- <-].
  all: frame_more.
Qed.

(** ** Further properties of the methods *)

(** *** Validation *)

(** [_checkInputDim] accepts exactly the tensors of two dimensions whose
    second size is the number of elements of [running_mean]. *)
Theorem validation_accepts_exactly input w t :
  self w !! "running_mean" = Some (VTensor t) ->
  fst (_checkInputDim input w) = Ok tt <->
  dim input = 2 /\ Tensor.size input 1 = nElement t.
Proof.
  intros Hrm. split.
  - intros H. destruct (Z.eq_dec (dim input) 2) as [Hd|Hd].
    + split; [exact Hd|].
      destruct (Z.eq_dec (Tensor.size input 1) (nElement t)) as [Hs|Hs];
        [exact Hs|].
      rewrite (_checkInputDim_features _ _ _ Hd Hrm Hs) in H. discriminate.
    + rewrite (_checkInputDim_rank _ _ Hd) in H. discriminate.
  - intros [Hd Hs]. unfold _checkInputDim. rewrite Hd.
    change (negb (2 =? 2)) with false. cbv iota.
    unfold bind at 1. unfold getattr. rewrite Hrm.
    unfold bind at 1. cbn [as_tensor ret].
    apply Z.eqb_eq in Hs. rewrite Hs. reflexivity.
Qed.

Lemma validation_accepts_exactly_witness :
  fst (_checkInputDim Example.batch Example.layer3) = Ok tt <->
  dim Example.batch = 2 /\
  Tensor.size Example.batch 1 = nElement (Tensor.zero (zeros 3)).
Proof.
  apply (validation_accepts_exactly Example.batch Example.layer3
           (Tensor.zero (zeros 3))).
  vm_compute. reflexivity.
Defined.

(** A tensor that has not two dimensions is refused by every public call
    with a message that names the number of dimensions it has; the rank is
    looked at before the feature count, and the layer is left as it was. *)
Theorem rank_error_names_rank kf kb c w :
  well_formed w ->
  dim (call_input c) <> 2 ->
  perform kf kb c w =
  (Raise (RuntimeError
            ("only mini-batch supported (2D tensor), got "
               ++ str_int (dim (call_input c)) ++ "D tensor instead")%string),
   w).
Proof.
  intros Hwf Hd. apply validation_failure; [exact Hwf|].
  rewrite (_checkInputDim_rank _ _ Hd). reflexivity.
Qed.

Lemma rank_error_names_rank_witness :
  perform Example.kf0 Example.kb0 (Call_updateOutput Example.flat)
          Example.layer3 =
  (Raise (RuntimeError
            "only mini-batch supported (2D tensor), got 1D tensor instead"),
   Example.layer3).
Proof.
  apply (rank_error_names_rank Example.kf0 Example.kb0
           (Call_updateOutput Example.flat) Example.layer3).
  - exact example_layer_well_formed.
  - vm_compute. discriminate.
Defined.

(** Validation reads the layer and never writes it, whatever the tensor and
    whatever the layer holds. *)
Theorem validation_never_writes input w : snd (_checkInputDim input w) = w.
Proof. apply _checkInputDim_pure. Qed.

(** The gradient entry points validate [gradOutput] after [input]: when the
    input passes and [gradOutput] does not, each of them raises the error of
    [gradOutput] and leaves the layer as it was. *)
Theorem gradOutput_validated_second kb input gradOutput scale w e :
  well_formed w ->
  fst (_checkInputDim input w) = Ok tt ->
  fst (_checkInputDim gradOutput w) = Raise e ->
  backward kb input gradOutput scale w = (Raise e, w) /\
  updateGradInput kb input gradOutput w = (Raise e, w) /\
  accGradParameters kb input gradOutput scale w = (Raise e, w).
Proof.
  intros Hwf Hi Hg. destruct w as [s g]. inversion Hwf; subst.
  unfold backward, updateGradInput, accGradParameters.
  rewrite !run_getattr. simpl_lookup.
  repeat split; apply check_failure_backward2; assumption.
Qed.

Lemma gradOutput_validated_second_witness :
  backward Example.kb0 Example.batch Example.wide (VInt 1) Example.layer3 =
  (Raise (RuntimeError "got %d-feature tensor, expected %d"), Example.layer3)
  /\
  updateGradInput Example.kb0 Example.batch Example.wide Example.layer3 =
  (Raise (RuntimeError "got %d-feature tensor, expected %d"), Example.layer3)
  /\
  accGradParameters Example.kb0 Example.batch Example.wide (VInt 1)
                    Example.layer3 =
  (Raise (RuntimeError "got %d-feature tensor, expected %d"), Example.layer3).
Proof.
  apply (gradOutput_validated_second Example.kb0 Example.batch Example.wide
           (VInt 1) Example.layer3).
  - exact example_layer_well_formed.
  - vm_compute. reflexivity.
  - vm_compute. reflexivity.
Defined.

(** The guard of [_backward] fires when one of the attributes [save_mean]
    and [save_std] does not exist: valid tensors are then refused with the
    state error before anything is written. *)
Theorem state_guard_needs_absent_attribute
    kb input gradOutput scale gi gw gb w :
  fst (_checkInputDim input w) = Ok tt ->
  fst (_checkInputDim gradOutput w) = Ok tt ->
  self w !! "save_mean" = None \/ self w !! "save_std" = None ->
  _backward kb input gradOutput scale gi gw gb w =
  (Raise (RuntimeError
            "you have to call updateOutput() at least once before backward()"),
   w).
Proof.
  intros Hi Hg Habs. destruct w as [s g]. cbn [self] in Habs.
  unfold _backward.
  rewrite run_checkInputDim, Hi, run_checkInputDim, Hg, !run_hasattr.
  destruct Habs as [H|H]; rewrite H.
  - reflexivity.
  - destruct (s !! "save_mean"); reflexivity.
Qed.

Lemma state_guard_needs_absent_attribute_witness :
  _backward Example.kb0 Example.batch Example.batch (VInt 1)
            (OwnBuffer "gradInput") NoBuffer NoBuffer Cases.uncached =
  (Raise (RuntimeError
            "you have to call updateOutput() at least once before backward()"),
   Cases.uncached).
Proof.
  apply (state_guard_needs_absent_attribute Example.kb0 Example.batch
           Example.batch (VInt 1) (OwnBuffer "gradInput") NoBuffer NoBuffer
           Cases.uncached).
  - vm_compute. reflexivity.
  - vm_compute. reflexivity.
  - left. vm_compute. reflexivity.
Defined.

(** *** Contiguous copies *)

(** Contiguous tensors pass through [_makeContiguous] as they are, and the
    layer is not written. *)
Theorem makeContiguous_contiguous_identity input gradOutput w :
  isContiguous input = true ->
  isContiguous gradOutput = true ->
  _makeContiguous input (Some gradOutput) w =
  (Ok (input, Some gradOutput), w) /\
  _makeContiguous input None w = (Ok (input, None), w).
Proof.
  intros Hi Hg. split.
  - apply _makeContiguous_contiguous; assumption.
  - apply _makeContiguous_contiguous1; assumption.
Qed.

Lemma makeContiguous_contiguous_identity_witness :
  _makeContiguous Example.batch (Some Example.wide) Example.layer3 =
  (Ok (Example.batch, Some Example.wide), Example.layer3) /\
  _makeContiguous Example.batch None Example.layer3 =
  (Ok (Example.batch, None), Example.layer3).
Proof.
  apply (makeContiguous_contiguous_identity Example.batch Example.wide
           Example.layer3); reflexivity.
Defined.

(** Whatever the tensors and the layer, [_makeContiguous] writes no
    attribute but [_input] and [_gradOutput], and draws nothing. *)
Theorem makeContiguous_writes_scratch_only input gradOutput w :
  frame scratch w (snd (_makeContiguous input gradOutput w)).
Proof.
  destruct (_makeContiguous input gradOutput w) as [r w'] eqn:E.
  exact (_makeContiguous_frame _ _ _ _ _ E).
Qed.

(** A tensor that is not contiguous is copied: when [_input] holds [None]
    or a tensor, the call returns a contiguous tensor with the sizes and
    the elements of the input, and [_input] holds that tensor afterwards. *)
Theorem makeContiguous_copies input w cur :
  isContiguous input = false ->
  self w !! "_input" = Some cur ->
  is_buffer cur = true ->
  exists b w',
    _makeContiguous input None w = (Ok (b, None), w') /\
    self w' !! "_input" = Some (VTensor b) /\
    sizes b = sizes input /\ data b = data input /\
    isContiguous b = true.
Proof.
  intros Hc Hcur Hbuf. destruct w as [s g]. cbn [self] in Hcur.
  unfold _makeContiguous, contiguous_in. rewrite Hc. cbn [negb].
  rewrite !run_assoc, run_getattr, Hcur.
  destruct cur; try discriminate Hbuf; cbn [py_or truthy].
  all: rewrite !run_assoc, run_setattr; cbn [as_tensor];
    rewrite !run_assoc, run_ret, !run_assoc, run_setattr, !run_ret.
  all: do 2 eexists; split; [reflexivity|]; cbn [self];
    rewrite lookup_set_eq; repeat split.
Qed.

Lemma makeContiguous_copies_witness :
  exists b w',
    _makeContiguous Cases.strided None Cases.buffered = (Ok (b, None), w') /\
    self w' !! "_input" = Some (VTensor b) /\
    sizes b = sizes Cases.strided /\ data b = data Cases.strided /\
    isContiguous b = true.
Proof.
  apply (makeContiguous_copies Cases.strided Cases.buffered VNone).
  - reflexivity.
  - vm_compute. reflexivity.
  - reflexivity.
Defined.

(** The copy buffer is read before it is assigned: on a layer that has no
    attribute [_input], a tensor that is not contiguous makes the call
    raise [AttributeError], and nothing is written. *)
Theorem makeContiguous_needs_buffer_attribute input gradOutput w :
  isContiguous input = false ->
  self w !! "_input" = None ->
  _makeContiguous input gradOutput w = (Raise (AttributeError "_input"), w).
Proof.
  intros Hc Hcur. destruct w as [s g]. cbn [self] in Hcur.
  unfold _makeContiguous, contiguous_in. rewrite Hc. cbn [negb].
  rewrite !run_assoc, run_getattr, Hcur. reflexivity.
Qed.

Lemma makeContiguous_needs_buffer_attribute_witness :
  _makeContiguous Cases.strided None Example.layer3 =
  (Raise (AttributeError "_input"), Example.layer3).
Proof.
  apply (makeContiguous_needs_buffer_attribute Cases.strided None
           Example.layer3).
  - reflexivity.
  - vm_compute. reflexivity.
Defined.

(** *** Construction *)

(** A layer the constructor returns is in a regular state. *)
Theorem constructor_gives_regular_layer draw n eps mom aff w0 w :
  __init__ draw n eps mom aff w0 = (Ok tt, w) -> well_formed w.
Proof. apply init_well_formed. Qed.

Lemma constructor_gives_regular_layer_witness : well_formed Example.plain3.
Proof.
  apply (constructor_gives_regular_layer Example.draw0 3 Example.eps0
           Example.momentum0 (VBool false) Example.nothing Example.plain3).
  vm_compute. reflexivity.
Defined.

(** An affine layer of [n > 0] features is constructed with the next [n]
    draws of the generator as its weight, a bias and a running mean of [n]
    zeros, a running variance of [n] ones, in training mode and with an
    empty forward cache. *)
Theorem constructor_affine draw n eps mom aff w0 :
  0 < n -> truthy aff = true ->
  exists w,
    __init__ draw n eps mom aff w0 = (Ok tt, w) /\
    self w !! "weight" =
      Some (VTensor (mkTensor [n] (map draw (seq (gen w0) (Z.to_nat n))) true))
    /\
    self w !! "bias" = Some (VTensor (mkTensor [n] (repeat 0%Q (Z.to_nat n)) true))
    /\
    self w !! "running_mean" =
      Some (VTensor (mkTensor [n] (repeat 0%Q (Z.to_nat n)) true)) /\
    self w !! "running_var" =
      Some (VTensor (mkTensor [n] (repeat 1%Q (Z.to_nat n)) true)) /\
    self w !! "train" = Some (VBool true) /\
    self w !! "save_mean" = Some VNone /\ self w !! "save_std" = Some VNone /\
    gen w = (gen w0 + Z.to_nat n)%nat.
Proof.
  intros Hn Haff. destruct w0 as [s g].
  assert (Hz : (n =? 0) = false) by (apply Z.eqb_neq; lia).
  assert (Hp : (0 <? n) = true) by (apply Z.ltb_lt; lia).
  rewrite run_tail. unfold __init__. rewrite run_assoc.
  unfold Module_init. rewrite run_assoc, !run_setattr, Hz.
  run. eexists. split; [reflexivity|]. cbn [self gen]. simpl_lookup.
  unfold uniform, Tensor.zero, Tensor.fill, map_data, alloc, zeros, ones, full,
    sizes1.
  rewrite Hp. cbn [sizes data contiguous].
  rewrite !map_const, !repeat_length. repeat split.
Qed.

Lemma constructor_affine_witness :
  exists w,
    __init__ Example.draw0 3 Example.eps0 Example.momentum0 (VBool true)
             Example.nothing = (Ok tt, w) /\
    self w !! "weight" =
      Some (VTensor (mkTensor [3] (map Example.draw0 (seq 0 3)) true)) /\
    self w !! "bias" = Some (VTensor (mkTensor [3] (repeat 0%Q 3) true)) /\
    self w !! "running_mean" = Some (VTensor (mkTensor [3] (repeat 0%Q 3) true))
    /\
    self w !! "running_var" = Some (VTensor (mkTensor [3] (repeat 1%Q 3) true))
    /\
    self w !! "train" = Some (VBool true) /\
    self w !! "save_mean" = Some VNone /\ self w !! "save_std" = Some VNone /\
    gen w = 3%nat.
Proof.
  apply (constructor_affine Example.draw0 3 Example.eps0 Example.momentum0
           (VBool true) Example.nothing).
  - lia.
  - reflexivity.
Defined.

(** A layer that is not affine is constructed without parameters: the four
    parameter attributes hold [None], and nothing is drawn from the
    generator. *)
Theorem constructor_plain draw n eps mom aff w0 :
  n <> 0 -> truthy aff = false ->
  exists w,
    __init__ draw n eps mom aff w0 = (Ok tt, w) /\
    self w !! "weight" = Some VNone /\ self w !! "bias" = Some VNone /\
    self w !! "gradWeight" = Some VNone /\ self w !! "gradBias" = Some VNone /\
    self w !! "running_mean" = Some (VTensor (zeros n)) /\
    self w !! "running_var" = Some (VTensor (ones n)) /\
    gen w = gen w0.
Proof.
  intros Hn Haff. destruct w0 as [s g]. apply Z.eqb_neq in Hn.
  rewrite run_tail. unfold __init__. rewrite run_assoc.
  unfold Module_init. rewrite run_assoc, !run_setattr, Hn.
  run. eexists. split; [reflexivity|]. cbn [self gen]. simpl_lookup.
  repeat split.
Qed.

Lemma constructor_plain_witness :
  exists w,
    __init__ Example.draw0 3 Example.eps0 Example.momentum0 (VBool false)
             Example.nothing = (Ok tt, w) /\
    self w !! "weight" = Some VNone /\ self w !! "bias" = Some VNone /\
    self w !! "gradWeight" = Some VNone /\ self w !! "gradBias" = Some VNone /\
    self w !! "running_mean" = Some (VTensor (zeros 3)) /\
    self w !! "running_var" = Some (VTensor (ones 3)) /\
    gen w = gen Example.nothing.
Proof.
  apply (constructor_plain Example.draw0 3 Example.eps0 Example.momentum0
           (VBool false) Example.nothing).
  - lia.
  - reflexivity.
Defined.

(** *** The regular state is kept *)

(** Every public call, whether it returns or raises, leaves a regular layer
    regular. *)
Theorem calls_keep_layer_regular kf kb c w :
  well_formed w -> well_formed (snd (perform kf kb c w)).
Proof.
  intros Hwf. destruct (perform kf kb c w) as [r w'] eqn:E. cbn [snd].
  destruct c; cbn [perform] in E.
  - exact (updateOutput_well_formed _ _ _ _ _ Hwf E).
  - exact (backward_well_formed _ _ _ _ _ _ _ Hwf E).
  - exact (updateGradInput_well_formed _ _ _ _ _ _ Hwf E).
  - exact (accGradParameters_well_formed _ _ _ _ _ _ _ Hwf E).
Qed.

Lemma calls_keep_layer_regular_witness :
  well_formed
    (snd (perform Example.kf0 Example.kb0 (Call_updateOutput Example.batch)
            Example.layer3)).
Proof.
  apply (calls_keep_layer_regular Example.kf0 Example.kb0
           (Call_updateOutput Example.batch) Example.layer3).
  exact example_layer_well_formed.
Defined.

(** [reset] leaves a regular layer regular. *)
Theorem reset_keeps_layer_regular draw w :
  well_formed w -> well_formed (snd (reset draw w)).
Proof.
  intros Hwf. destruct (reset draw w) as [r w'] eqn:E. cbn [snd].
  revert E. destruct w as [s g]. inversion Hwf; subst.
  rewrite run_tail. unfold reset.
  run; intros [= <- <-]; try assumption.
  all: solve [wf_goal].
Qed.

Lemma reset_keeps_layer_regular_witness :
  well_formed (snd (reset Example.draw0 Example.layer3)).
Proof.
  apply (reset_keeps_layer_regular Example.draw0 Example.layer3).
  exact example_layer_well_formed.
Defined.

(** *** The forward call *)

(** On a regular layer, a valid contiguous input makes [updateOutput]
    return; what it returns is the attribute [output] after the call, and
    the forward cache [save_mean], [save_std] then holds tensors. *)
Theorem updateOutput_returns_output kf input w :
  well_formed w ->
  fst (_checkInputDim input w) = Ok tt ->
  isContiguous input = true ->
  exists v w' sm ss,
    updateOutput kf input w = (Ok v, w') /\
    self w' !! "output" = Some v /\
    self w' !! "save_mean" = Some (VTensor sm) /\
    self w' !! "save_std" = Some (VTensor ss).
Proof.
  intros Hwf Hi Hc. destruct w as [s g]. inversion Hwf; subst.
  rewrite run_tail. unfold updateOutput.
  run.
  all: do 4 eexists; split; [reflexivity|]; cbn [self]; simpl_lookup.
  all: repeat split.
Qed.

Lemma updateOutput_returns_output_witness :
  exists v w' sm ss,
    updateOutput Example.kf0 Example.batch Example.layer3 = (Ok v, w') /\
    self w' !! "output" = Some v /\
    self w' !! "save_mean" = Some (VTensor sm) /\
    self w' !! "save_std" = Some (VTensor ss).
Proof.
  apply (updateOutput_returns_output Example.kf0 Example.batch Example.layer3).
  - exact example_layer_well_formed.
  - vm_compute. reflexivity.
  - reflexivity.
Defined.

(** Whatever the input and the layer, and whether it returns or raises,
    [updateOutput] writes neither the parameters nor the gradient buffers,
    and draws nothing: only the contiguity buffers, [output], the running
    statistics and the forward cache can change. *)
Theorem updateOutput_writes kf input w :
  frame (scratch ++ ["output"; "save_mean"; "save_std";
                     "running_mean"; "running_var"])
        w (snd (updateOutput kf input w)).
Proof.
  destruct (updateOutput kf input w) as [r w'] eqn:E.
  exact (updateOutput_frame _ _ _ _ _ E).
Qed.

(** *** The gradient calls *)

(** Whatever the tensors and the layer, [backward] writes neither the
    running statistics, nor the forward cache, nor the parameters: only the
    contiguity buffers and the three gradient buffers can change. *)
Theorem backward_writes kb input gradOutput scale w :
  frame (scratch ++ ["gradInput"; "gradWeight"; "gradBias"])
        w (snd (backward kb input gradOutput scale w)).
Proof.
  destruct (backward kb input gradOutput scale w) as [r w'] eqn:E.
  exact (backward_frame _ _ _ _ _ _ _ E).
Qed.

(** Whatever the tensors and the layer, [accGradParameters] does not write
    [gradInput]: only the contiguity buffers and the two parameter gradients
    can change. *)
Theorem accGradParameters_writes kb input gradOutput scale w :
  frame (scratch ++ ["gradWeight"; "gradBias"])
        w (snd (accGradParameters kb input gradOutput scale w)).
Proof.
  destruct (accGradParameters kb input gradOutput scale w) as [r w'] eqn:E.
  exact (accGradParameters_frame _ _ _ _ _ _ _ E).
Qed.

(** *** Loading *)

(** A layer of format version 2 or later is loaded by the base class alone:
    [read] is the base-class load. *)
Theorem read_current_format file (Module_read : file -> M unit) f version w :
  2 <= version ->
  read file Module_read f version w = Module_read f w.
Proof.
  intros Hv. apply Z.ltb_ge in Hv. unfold read. rewrite run_opaque, Hv.
  destruct (Module_read f w) as [[[]|e] w']; reflexivity.
Qed.

Lemma read_current_format_witness :
  read (gmap string value) Example.load Example.old_file 2 Example.nothing =
  Example.load Example.old_file Example.nothing.
Proof.
  apply (read_current_format (gmap string value) Example.load
           Example.old_file 2 Example.nothing).
  lia.
Defined.

(** An old-format layer whose [running_std] counts as false ([None], say)
    is loaded without conversion and without error. *)
Theorem read_old_format_falsy_std
    file (Module_read : file -> M unit) f version w w1 rs :
  version < 2 ->
  Module_read f w = (Ok tt, w1) ->
  self w1 !! "running_std" = Some rs -> truthy rs = false ->
  read file Module_read f version w = (Ok tt, w1).
Proof.
  intros Hv Hr Hrs Hf. apply Z.ltb_lt in Hv. destruct w1 as [s g].
  cbn [self] in Hrs. unfold read.
  rewrite run_opaque, Hr, Hv, run_getattr, Hrs, Hf. reflexivity.
Qed.

Lemma read_old_format_falsy_std_witness :
  read (gmap string value) Example.load Cases.bare_file 1 Example.nothing =
  (Ok tt, mkWorld Cases.bare_file 0).
Proof.
  apply (read_old_format_falsy_std (gmap string value) Example.load
           Cases.bare_file 1 Example.nothing (mkWorld Cases.bare_file 0)
           VNone).
  - lia.
  - reflexivity.
  - vm_compute. reflexivity.
  - reflexivity.
Defined.

(** The attribute [running_std] is read without asking whether it exists:
    an old-format layer that has none makes the load raise
    [AttributeError]. *)
Theorem read_old_format_missing_std
    file (Module_read : file -> M unit) f version w w1 :
  version < 2 ->
  Module_read f w = (Ok tt, w1) ->
  self w1 !! "running_std" = None ->
  read file Module_read f version w =
  (Raise (AttributeError "running_std"), w1).
Proof.
  intros Hv Hr Hrs. apply Z.ltb_lt in Hv. destruct w1 as [s g].
  cbn [self] in Hrs. unfold read.
  rewrite run_opaque, Hr, Hv, run_getattr, Hrs. reflexivity.
Qed.

Lemma read_old_format_missing_std_witness :
  read (gmap string value) Example.load ∅ 1 Example.nothing =
  (Raise (AttributeError "running_std"), mkWorld ∅ 0).
Proof.
  apply (read_old_format_missing_std (gmap string value) Example.load
           ∅ 1 Example.nothing (mkWorld ∅ 0)).
  - lia.
  - reflexivity.
  - vm_compute. reflexivity.
Defined.

(** *** The errors of a regular layer *)

Lemma validation_errors input w t e :
  self w !! "running_mean" = Some (VTensor t) ->
  fst (_checkInputDim input w) = Raise e ->
  e = RuntimeError ("only mini-batch supported (2D tensor), got "
                      ++ str_int (dim input) ++ "D tensor instead")%string \/
  e = RuntimeError feature_message.
Proof.
  intros Hrm H. destruct (Z.eq_dec (dim input) 2) as [Hd|Hd].
  - destruct (Z.eq_dec (Tensor.size input 1) (nElement t)) as [Hs|Hs].
    + assert (Hok : fst (_checkInputDim input w) = Ok tt).
      { unfold _checkInputDim. rewrite Hd.
        change (negb (2 =? 2)) with false. cbv iota.
        unfold bind at 1. unfold getattr. rewrite Hrm.
        unfold bind at 1. cbn [as_tensor ret].
        apply Z.eqb_eq in Hs. rewrite Hs. reflexivity. }
      rewrite Hok in H. discriminate.
    + rewrite (_checkInputDim_features _ _ _ Hd Hrm Hs) in H.
      injection H as <-. right. reflexivity.
  - rewrite (_checkInputDim_rank _ _ Hd) in H. injection H as <-.
    left. reflexivity.
Qed.

Lemma validation_expected input w t e :
  self w !! "running_mean" = Some (VTensor t) ->
  fst (_checkInputDim input w) = Raise e ->
  expected_error e.
Proof.
  intros Hrm H. destruct (validation_errors _ _ _ _ Hrm H) as [-> | ->].
  - left. eexists. reflexivity.
  - right. left. reflexivity.
Qed.

Lemma attribute_expected m : expected_error (AttributeError m).
Proof. right. right. eexists. reflexivity. Qed.

Lemma expected_not_state_error e :
  expected_error e -> e <> RuntimeError state_message.
Proof. intros [[d ->]|[->|[m ->]]]; discriminate. Qed.

Lemma contiguous_in_errors a t w e w' :
  contiguous_in a t w = (Raise e, w') -> exists m, e = AttributeError m.
Proof.
  destruct w as [s g]. rewrite run_tail. unfold contiguous_in.
  run; intros [= <- <-]; eexists; reflexivity.
Qed.

Lemma _makeContiguous_errors i og w e w' :
  _makeContiguous i og w = (Raise e, w') -> exists m, e = AttributeError m.
Proof.
  unfold _makeContiguous. intros H.
  apply bind_inv in H. destruct H as [(i' & w1 & H1 & H)|(e1 & H1 & [= ->])].
  2: { exact (contiguous_in_errors _ _ _ _ _ H1). }
  apply bind_inv in H. destruct H as [(g' & w2 & H2 & H)|(e2 & H2 & [= ->])].
  - discriminate.
  - destruct og as [g0|]; cbn [truthy] in H2; [|discriminate].
    apply bind_inv in H2. destruct H2 as [(g1 & w3 & H2 & H)|(e' & H2 & [= ->])].
    + discriminate.
    + exact (contiguous_in_errors _ _ _ _ _ H2).
Qed.

Lemma _backward_errors kb input gradOutput scale gi gw gb w e w' :
  well_formed w ->
  _backward kb input gradOutput scale gi gw gb w = (Raise e, w') ->
  expected_error e.
Proof.
  intros Hwf. destruct w as [s g]. inversion Hwf; subst.
  rewrite run_tail. unfold _backward.
  rewrite run_assoc, run_checkInputDim.
  destruct (fst (_checkInputDim input _)) as [[]|e1] eqn:E1.
  2: { intros [= <- <-]. eapply validation_expected; [|exact E1].
       cbn [self]. eassumption. }
  rewrite run_assoc, run_checkInputDim.
  destruct (fst (_checkInputDim gradOutput _)) as [[]|e2] eqn:E2.
  2: { intros [= <- <-]. eapply validation_expected; [|exact E2].
       cbn [self]. eassumption. }
  rewrite run_assoc, run_hasattr, run_assoc, run_hasattr. simpl_lookup.
  cbn [negb orb]. rewrite run_assoc, run_opaque.
  destruct (_makeContiguous input (Some gradOutput) _)
    as [[[i' g']|e3] [s' g0]] eqn:Hmc.
  2: { intros [= <- <-].
       destruct (_makeContiguous_errors _ _ _ _ _ Hmc) as [m ->].
       apply attribute_expected. }
  pose proof Hmc as Hsome.
  apply _makeContiguous_frame in Hmc.
  pose proof (well_formed_frame _ _ Hmc Hwf) as Hwf'.
  inversion Hwf'; subst. clear Hmc.
  assert (Hg' : exists g1, g' = Some g1).
  { revert Hsome. clear. unfold _makeContiguous. intros H.
    apply bind_inv in H. destruct H as [(i1 & w1 & _ & H)|(? & _ & ?)];
      [|discriminate].
    apply bind_inv in H. destruct H as [(g2 & w2 & Hg2 & H)|(? & _ & ?)];
      [|discriminate].
    injection H as _ <- _. cbn [truthy] in Hg2.
    apply bind_inv in Hg2. destruct Hg2 as [(g3 & w3 & _ & H)|(? & _ & ?)];
      [|discriminate].
    injection H as <- _. eexists. reflexivity. }
  destruct Hg' as [g1 ->]. clear Hsome.
  run; intros [= <- <-]; apply attribute_expected.
Qed.

Lemma updateOutput_errors kf input w e w' :
  well_formed w ->
  updateOutput kf input w = (Raise e, w') ->
  expected_error e.
Proof.
  intros Hwf. destruct w as [s g]. inversion Hwf; subst.
  rewrite run_tail. unfold updateOutput.
  rewrite run_assoc, run_checkInputDim.
  destruct (fst (_checkInputDim input _)) as [[]|e1] eqn:E1.
  2: { intros [= <- <-]. eapply validation_expected; [|exact E1].
       cbn [self]. eassumption. }
  rewrite run_assoc, run_opaque.
  destruct (_makeContiguous input None _) as [[[i' g']|e3] [s' g0]] eqn:Hmc.
  2: { intros [= <- <-].
       destruct (_makeContiguous_errors _ _ _ _ _ Hmc) as [m ->].
       apply attribute_expected. }
  apply _makeContiguous_frame in Hmc.
  pose proof (well_formed_frame _ _ Hmc Hwf) as Hwf'.
  inversion Hwf'; subst. clear Hmc.
  run; try discriminate; intros [= <- <-]; apply attribute_expected.
Qed.

(** On a regular layer a public call that raises raises one of the two
    validation errors or an [AttributeError]; it never raises the state
    error, whatever it is given: the layer has the attributes the guard asks
    for from its construction on. *)
Theorem state_error_never_raised kf kb c w e w' :
  well_formed w ->
  perform kf kb c w = (Raise e, w') ->
  expected_error e /\ e <> RuntimeError state_message.
Proof.
  intros Hwf H.
  assert (He : expected_error e).
  { destruct w as [s g]. inversion Hwf; subst.
    destruct c; cbn [perform] in H.
    - exact (updateOutput_errors _ _ _ _ _ Hwf H).
    - revert H. unfold backward. rewrite !run_getattr. simpl_lookup.
      apply _backward_errors, Hwf.
    - revert H. unfold updateGradInput. rewrite !run_getattr. simpl_lookup.
      apply _backward_errors, Hwf.
    - revert H. unfold accGradParameters. rewrite !run_getattr. simpl_lookup.
      apply _backward_errors, Hwf. }
  split; [exact He|apply expected_not_state_error, He].
Qed.

Lemma state_error_never_raised_witness :
  expected_error
    (RuntimeError "only mini-batch supported (2D tensor), got 1D tensor instead")
  /\
  RuntimeError "only mini-batch supported (2D tensor), got 1D tensor instead"
    <> RuntimeError state_message.
Proof.
  apply (state_error_never_raised Example.kf0 Example.kb0
           (Call_backward Example.batch Example.flat (VInt 1)) Example.layer3
           (RuntimeError
              "only mini-batch supported (2D tensor), got 1D tensor instead")
           Example.layer3).
  - exact example_layer_well_formed.
  - vm_compute. reflexivity.
Defined.

(** On a regular layer that is not affine, [backward] leaves [gradWeight]
    and [gradBias] holding [None], whatever it is given. *)
Theorem backward_plain_layer kb input gradOutput scale w aff :
  well_formed w ->
  self w !! "affine" = Some aff -> truthy aff = false ->
  self (snd (backward kb input gradOutput scale w)) !! "gradWeight" = Some VNone
  /\
  self (snd (backward kb input gradOutput scale w)) !! "gradBias" = Some VNone.
Proof.
  intros Hwf Ha Haff.
  destruct (backward kb input gradOutput scale w) as [r w'] eqn:E. cbn [snd].
  pose proof (backward_well_formed _ _ _ _ _ _ _ Hwf E) as Hwf'.
  pose proof (backward_frame _ _ _ _ _ _ _ E) as Hf.
  assert (Ha' : self w' !! "affine" = Some aff).
  { rewrite (frame_lookup _ _ _ _ Hf); [exact Ha|].
    unfold scratch. cbn [app]. in_tac. }
  destruct Hwf'. cbn [self] in *.
  assert (affine = aff) by congruence. subst affine.
  unfold param_ok in *. rewrite Haff in *.
  destruct gw; try discriminate. destruct gb; try discriminate.
  split; assumption.
Qed.

Lemma backward_plain_layer_witness :
  self (snd (backward Example.kb0 Example.batch Example.batch (VInt 1)
               Example.plain3)) !! "gradWeight" = Some VNone /\
  self (snd (backward Example.kb0 Example.batch Example.batch (VInt 1)
               Example.plain3)) !! "gradBias" = Some VNone.
Proof.
  apply (backward_plain_layer Example.kb0 Example.batch Example.batch (VInt 1)
           Example.plain3 (VBool false)).
  - apply (init_well_formed Example.draw0 3 Example.eps0 Example.momentum0
             (VBool false) Example.nothing).
    vm_compute. reflexivity.
  - vm_compute. reflexivity.
  - reflexivity.
Defined.

(** *** Clearing *)

Lemma drop_value_idempotent v : drop_value (drop_value v) = drop_value v.
Proof. destruct v; reflexivity. Qed.

Lemma clear_lookup names : forall w,
  exists w', clear names w = (Ok tt, w') /\ gen w' = gen w /\
    forall k,
      self w' !! k =
      if in_dec string_dec k names then drop_value <$> self w !! k
      else self w !! k.
Proof.
  induction names as [|a names IH]; intros w.
  - exists w. cbn. repeat split; auto.
  - cbn [clear]. unfold bind. rewrite clear1_alter.
    destruct (IH (mkWorld (alter drop_value a (self w)) (gen w)))
      as (w' & Hrun & Hgen & Hk).
    exists w'. rewrite Hrun. cbn [self gen] in *.
    split; [reflexivity|]. split; [assumption|].
    intros k. rewrite Hk.
    destruct (in_dec string_dec k names) as [Hin|Hin];
      destruct (in_dec string_dec k (a :: names)) as [Hin'|Hin'].
    + destruct (decide (a = k)) as [<-|Hne].
      * rewrite lookup_alter_eq. destruct (self w !! a); cbn; [|reflexivity].
        rewrite drop_value_idempotent. reflexivity.
      * rewrite lookup_alter_ne by assumption. reflexivity.
    + exfalso. apply Hin'. right. exact Hin.
    + destruct Hin' as [<-|Hin']; [|contradiction].
      rewrite lookup_alter_eq. reflexivity.
    + rewrite lookup_alter_ne; [reflexivity|].
      intros ->. apply Hin'. left. reflexivity.
Qed.

Lemma world_eq w1 w2 :
  gen w1 = gen w2 -> (forall k, self w1 !! k = self w2 !! k) -> w1 = w2.
Proof.
  destruct w1 as [s1 g1], w2 as [s2 g2]. cbn. intros -> H.
  f_equal. apply map_eq, H.
Qed.

(** [clearState] writes the names of its list and the two buffers of the
    base class, and nothing else: the hyperparameters, the mode and every
    other attribute are as before, and nothing is drawn.  The buffers
    [output] and [gradInput] hold nothing afterwards. *)
Theorem clearState_writes w :
  frame (cleared_names ++ ["output"; "gradInput"]) w (snd (clearState w)) /\
  holds_nothing (self (snd (clearState w)) !! "output") /\
  holds_nothing (self (snd (clearState w)) !! "gradInput").
Proof.
  unfold clearState, Module_clearState, bind.
  destruct (clear_spec cleared_names w) as (w1 & E1 & Hg1 & Hout1 & _ & _).
  destruct (clear_spec ["output"; "gradInput"] w1)
    as (w2 & E2 & Hg2 & Hout2 & Hin2 & _).
  rewrite E1, E2. cbn [snd]. split; [split|split].
  - congruence.
  - intros k Hk. rewrite Hout2, Hout1; [reflexivity| |].
    + intros Hin. apply Hk, in_or_app. left. exact Hin.
    + intros Hin. apply Hk, in_or_app. right. exact Hin.
  - apply Hin2. in_tac.
  - apply Hin2. in_tac.
Qed.

(** Clearing a cleared layer changes nothing. *)
Theorem clearState_idempotent w :
  clearState (snd (clearState w)) = (Ok tt, snd (clearState w)).
Proof.
  assert (Hrun : forall w0, exists w2,
             clearState w0 = (Ok tt, w2) /\ gen w2 = gen w0 /\
             forall k, self w2 !! k =
                       if in_dec string_dec k
                            (cleared_names ++ ["output"; "gradInput"])
                       then drop_value <$> self w0 !! k else self w0 !! k).
  { intros w0. unfold clearState, Module_clearState, bind.
    destruct (clear_lookup cleared_names w0) as (w1 & E1 & Hg1 & Hk1).
    destruct (clear_lookup ["output"; "gradInput"] w1) as (w2 & E2 & Hg2 & Hk2).
    exists w2. rewrite E1, E2. split; [reflexivity|]. split; [congruence|].
    intros k. rewrite Hk2, Hk1.
    destruct (in_dec string_dec k ["output"; "gradInput"]) as [Hb|Hb];
      destruct (in_dec string_dec k cleared_names) as [Hc|Hc];
      destruct (in_dec string_dec k (cleared_names ++ ["output"; "gradInput"]))
        as [Ha|Ha];
      try reflexivity.
    - destruct (self w0 !! k); cbn; [|reflexivity].
      rewrite drop_value_idempotent. reflexivity.
    - exfalso. apply Ha, in_or_app. left. exact Hc.
    - exfalso. apply Ha, in_or_app. right. exact Hb.
    - exfalso. apply Ha, in_or_app. left. exact Hc.
    - exfalso. apply in_app_or in Ha. tauto. }
  destruct (Hrun w) as (w1 & E1 & Hg1 & Hk1). rewrite E1. cbn [snd].
  destruct (Hrun w1) as (w2 & E2 & Hg2 & Hk2). rewrite E2.
  f_equal. apply world_eq; [exact Hg2|].
  intros k. rewrite Hk2, Hk1.
  destruct (in_dec string_dec k (cleared_names ++ ["output"; "gradInput"]));
    [|reflexivity].
  destruct (self w !! k); cbn; [|reflexivity].
  rewrite drop_value_idempotent. reflexivity.
Qed.
